(** * Cytomine PIMS: the window endpoint and its path parameters

    A shallow embedding of [pims/api/utils/parameter.py] and
    [pims/api/window.py].  Python values that travel in the request are
    modelled by one dynamically typed [value]; dictionaries are finite maps
    from Python keys to values; a raised exception is the [Raise] case of
    [result].  Functions and classes that the two files import from other
    modules of the server are the fields of the class [Server]. *)

From Stdlib Require Import ZArith NArith Lia.
From stdpp Require Import base option list strings gmap fin_maps sorting.

Local Open Scope Z_scope.

#[local] Set Warnings "-register-all".

(** ** Python values and dictionaries *)

(** A dictionary key.  Request payloads come out of [model_dump] with string
    keys only; a tuple is hashable too and is what line 134 of [window.py]
    looks up. *)
Inductive pykey : Type :=
  | KStr (s : string)
  | KTuple (l : list string).

#[global] Instance pykey_eq_dec : EqDecision pykey.
Proof. solve_decision. Defined.

Definition pykey_to_sum (k : pykey) : string + list string :=
  match k with KStr s => inl s | KTuple l => inr l end.

Definition pykey_of_sum (x : string + list string) : pykey :=
  match x with inl s => KStr s | inr l => KTuple l end.

#[global] Instance pykey_countable : Countable pykey.
Proof.
  refine (inj_countable' pykey_to_sum pykey_of_sum _).
  intros []; reflexivity.
Defined.

Inductive TierIndexType : Type := LEVEL | ZOOM.

(** Modelled from the spec: the members of [AnnotationStyleMode]
    (pims.api.utils.models), "DRAWING (outline overlay) or MASK". *)
Inductive AnnotationStyleMode : Type := DRAWING | MASK.

(** Modelled from the spec: the colour constants of pims.utils.color that
    the endpoint names, "stroke color red" and "fill white". *)
Inductive Color : Type := RED | WHITE | RGB (r g b : Z).

(** Modelled from the spec: the members of the reduction enumerations,
    "add/mean/min/max"; [ADD] is the one [window.py] names. *)
Inductive Reduction : Type := ADD | MEAN | MIN | MAX.

Inductive value : Type :=
  | VNone
  | VBool (b : bool)
  | VInt (z : Z)
  | VStr (s : string)
  | VTierIndexType (t : TierIndexType)
  | VStyleMode (m : AnnotationStyleMode)
  | VColor (c : Color)
  | VList (l : list value).

Abbreviation pydict := (gmap pykey value).

(** A Python [str] as its sequence of code points. *)
Abbreviation pystr := (list N).

(** ** Exceptions *)

Record Path : Type := from_filepath { filepath : string }.

Inductive Problem : Type :=
  | KeyError (k : pykey)
  | AttributeError (attr : string)
  | TypeError (what : string)
  | FilepathNotFoundProblem (p : Path)
  | NoAppropriateRepresentationProblem (p : option Path)
  | ReductionRequired (axis : string)
  | ArraySizeMismatch (name : string)
  | ParameterUnset (name : string)
  | OutOfBoundsRegion
  | InvalidTileAddress
  | InvalidZoomOrLevel
  | UnsupportedOutputFormat
  | InternalProblem (detail : string).

Inductive result (A : Type) : Type :=
  | Ok (a : A)
  | Raise (p : Problem).
Arguments Ok {A} a.
Arguments Raise {A} p.

#[global] Instance result_ret : MRet result := fun A a => Ok a.

#[global] Instance result_bind : MBind result := fun A B k m =>
  match m with
  | Ok a => k a
  | Raise p => Raise p
  end.

(** [d[k]] : subscripting raises [KeyError] on a missing key. *)
Definition getitem (d : pydict) (k : pykey) : result value :=
  match d !! k with
  | Some v => Ok v
  | None => Raise (KeyError k)
  end.

(** [k in d] *)
Definition contains (d : pydict) (k : pykey) : bool :=
  bool_decide (is_Some (d !! k)).

(** The keys of a payload that comes out of [model_dump] are strings. *)
Definition is_string_key (k : pykey) : bool :=
  match k with
  | KStr _ => true
  | KTuple _ => false
  end.

Definition string_keyed (d : pydict) : Prop :=
  map_Forall (fun k _ => is_string_key k = true) d.

#[global] Instance string_keyed_dec (d : pydict) : Decision (string_keyed d).
Proof. unfold string_keyed. apply _. Defined.

(** The style mode a request carries, if any. *)
Definition style_mode (annotation_style : option pydict) : option value :=
  annotation_style ≫= fun d => d !! KStr "mode".

Definition is_ok {A : Type} (r : result A) : bool :=
  match r with
  | Ok _ => true
  | Raise _ => false
  end.

(** ** [pims/api/utils/parameter.py] *)

(** What the path functions see of the file system. *)
Class FileSystem : Type := {
  exists_ : Path -> bool;
  is_single : Path -> bool
}.

Section parameter.
Context `{FileSystem}.

Definition filepath_parameter (fp : string) : result Path :=
  let path := from_filepath fp in
  if negb (exists_ path) then Raise (FilepathNotFoundProblem path)
  else Ok path.

Definition imagepath_parameter (fp : string) : result Path :=
  let path := from_filepath fp in
  if negb (exists_ path) then Raise (FilepathNotFoundProblem path)
  else if negb (is_single path) then
    Raise (NoAppropriateRepresentationProblem (Some path))
  else Ok path.
End parameter.

(** The characters [sanitize_filename] replaces, as code points, in the order
    of the source list: space, the two parentheses, plus, asterisk, slash,
    at sign, single quote, double quote, dollar, euro, pound, degree,
    backtick, the two square brackets, hash and question mark. *)
Definition bad_chars : list N :=
  [32; 40; 41; 43; 42; 47; 64; 39; 34;
   36; 8364; 163; 176; 96; 91; 93; 35; 63]%N.

(** The default [replacement], "-". *)
Definition default_replacement : pystr := [45%N].

Section sanitize.
(** [pathvalidate.sanitize_filename(filename, replacement_text=...)]. *)
Variable _sanitize_filename : pystr -> pystr -> result pystr.

Definition sanitize_filename (filename : pystr) (replacement : pystr)
  : result pystr :=
  sanitized ← _sanitize_filename filename replacement;
  Ok (concat (map (fun c => if bool_decide (c ∈ bad_chars)
                            then replacement else [c]) sanitized)).
End sanitize.

(** ** Collaborators of [pims/api/window.py] *)

(** The classes of the server that [window.py] only passes around. *)
Class Domain : Type := {
  Image : Type;
  Pyramid : Type;
  Tier : Type;
  Region : Type;
  ParsedAnnotation : Type;
  Affine : Type;
  OutFormat : Type;
  Filter : Type
}.

Section arguments.
Context `{Domain}.

(** [region: Union[Region, dict]] *)
Inductive region_arg : Type :=
  | IsRegion (r : Region)
  | RawRegion (d : pydict).

(** [annotations: Union[ParsedAnnotations, dict, List[dict]]], or [None].
    Modelled from the spec: [ParsedAnnotations] is "a collection of typed
    geometric shapes", here the list of its elements. *)
Inductive annotations_arg : Type :=
  | AnnNone
  | AnnParsed (p : list ParsedAnnotation)
  | AnnDict (d : pydict)
  | AnnList (l : list pydict).

Record Headers : Type := {
  accept : value;
  safe_mode : value;
  annot_origin : value
}.

Record Settings : Type := { output_size_limit : Z }.

(** A keyword argument that has a default in the signature. *)
Inductive kwarg (A : Type) : Type :=
  | Omitted
  | Given (a : A).

(** [MaskResponse(...)] and [WindowResponse(...)] with the arguments of the
    two constructor calls, in the order of the calls. *)
Inductive ImageResponse : Type :=
  | MaskResponse (in_image : Image)
      (annotations : annotations_arg) (affine : option Affine)
      (out_width out_height : Z) (out_bitdepth : Z) (out_format : OutFormat)
  | WindowResponse (in_image : Image)
      (channels z_slices timepoints : list Z)
      (region : region_arg) (out_format : OutFormat)
      (out_width out_height : Z)
      (c_reduction z_reduction t_reduction : option Reduction)
      (gammas : list value) (filters : list Filter) (colormaps : list value)
      (min_intensities max_intensities : list value) (flag : bool)
      (out_bitdepth : Z) (threshold colorspace : value)
      (annotations : annotations_arg) (affine : option Affine)
      (annotation_style : option pydict).

(** [window.http_response(mimetype, extra_headers=...)]: the response object,
    its mimetype, and the requested and safeguarded sizes that
    [add_image_size_limit_header] reports. *)
Record HttpResponse : Type := {
  window : ImageResponse;
  mimetype : string;
  req_size_header : Z * Z;
  out_size_header : Z * Z
}.
End arguments.

Arguments Omitted {A}.
Arguments Given {A} a.

(** The functions [window.py] imports from the rest of the server. *)
Class Server `{Domain} : Type := {
  server_fs :: FileSystem;
  get_cached_spatial : Path -> option Image;
  pyramid : Image -> Pyramid;
  max_zoom : Pyramid -> Z;
  image_height : Image -> Z;
  parse_region :
    Image -> value -> value -> value -> value -> value -> value -> bool ->
    result Region;
  check_tileindex_validity : Pyramid -> value -> value -> value -> result ();
  check_tilecoord_validity :
    Pyramid -> value -> value -> value -> value -> result ();
  get_tier_at : Pyramid -> value -> value -> result Tier;
  get_ti_tile : Tier -> value -> result Region;
  get_txty_tile : Tier -> value -> value -> result Region;
  extension_path_parameter : value -> result value;
  get_output_format : value -> value -> result (OutFormat * string);
  check_zoom_validity : Pyramid -> value -> result ();
  check_level_validity : Pyramid -> value -> result ();
  get_window_output_dimensions :
    Image -> region_arg -> value -> value -> value -> value -> value ->
    result (Z * Z);
  safeguard_output_dimensions : value -> Z -> Z -> Z -> result (Z * Z);
  get_channel_indexes : Image -> list value -> result (list Z);
  get_zslice_indexes : Image -> list value -> result (list Z);
  get_timepoint_indexes : Image -> list value -> result (list Z);
  default_min_intensity : Image -> Z -> value;
  default_max_intensity : Image -> Z -> value;
  default_colormap : Image -> Z -> value;
  default_gamma : Z -> value;
  is_useless_channel : Z -> value -> value -> value -> value -> bool;
  parse_filter_ids : list value -> result (list Filter);
  parse_bitdepth : Image -> value -> result Z;
  parse_annotations :
    list pydict -> list string -> pydict -> value -> value -> Z ->
    result (list ParsedAnnotation);
  annotations_region : list ParsedAnnotation -> Region;
  annotation_crop_affine_matrix :
    Region -> region_arg -> Z -> Z -> result Affine
}.

(** ** Helpers imported by [window.py] whose source is not in the two files *)

(** Modelled from the spec: [ensure_list] of pims.utils.iterables, which
    turns the scalar/array parameters into arrays: [None] is the empty
    array, a list is itself, a scalar is the array of that scalar. *)
Definition ensure_list (v : value) : list value :=
  match v with
  | VNone => []
  | VList l => l
  | v => [v]
  end.

(** Modelled from the spec: [check_reduction_validity] of
    pims.api.utils.input_parameter: if the resolved index sequence has
    length > 1, a reduction function for that axis must be present, else the
    call fails with a reduction-required error. *)
Definition check_reduction_validity
  (values : list Z) (reduc : option Reduction) (name : string) : result () :=
  if bool_decide (1 < length values)%nat && bool_decide (reduc = None)
  then Raise (ReductionRequired name)
  else Ok ().

(** Modelled from the spec: [check_array_size_parameters] of
    pims.utils.iterables: the arrays are found by name among the local
    variables; each array's length must be one of the allowed lengths, any
    other length fails with an array-size-mismatch error naming the
    offending parameter. *)
Definition check_array_size
  (iterable : option value) (allowed : list nat) (nullable : bool)
  (name : string) : result () :=
  match iterable with
  | None | Some VNone =>
      if nullable then Ok () else Raise (ParameterUnset name)
  | Some (VList l) =>
      if bool_decide (length l ∈ allowed) then Ok ()
      else Raise (ArraySizeMismatch name)
  | Some _ => Raise (TypeError "len")
  end.

Fixpoint check_array_size_parameters
  (parameter_names : list string) (parameters : gmap string value)
  (allowed : list nat) (nullable : bool) : result () :=
  match parameter_names with
  | [] => Ok ()
  | name :: rest =>
      check_array_size (parameters !! name) allowed nullable name;;
      check_array_size_parameters rest parameters allowed nullable
  end.

(** Modelled from the spec: the broadcaster behind [parse_intensity_bounds],
    [parse_colormap_ids] and [parse_gammas] of
    pims.api.utils.processing_parameter: length 0 yields the parameter's
    default for every channel, length 1 broadcasts the single value to all
    channels, length n is used as it is, any other length fails with an
    array-size-mismatch error naming the parameter. *)
Definition broadcast
  (name : string) (default : Z -> value) (channels : list Z)
  (array : list value) : result (list value) :=
  match array with
  | [] => Ok (default <$> channels)
  | [x] => Ok ((fun _ => x) <$> channels)
  | _ =>
      if bool_decide (length array = length channels) then Ok array
      else Raise (ArraySizeMismatch name)
  end.

(** The elements of [l] at the positions [idx], in the order of [idx]. *)
Definition take_at {A : Type} (l : list A) (idx : list nat) : list A :=
  omap (fun i => l !! i) idx.

Section window.
Context `{Server}.

(** Modelled from the spec: [parse_intensity_bounds] of
    pims.api.utils.processing_parameter, the broadcaster on the two
    intensity arrays. *)
Definition parse_intensity_bounds
  (in_image : Image) (channels z_slices timepoints : list Z)
  (min_intensities max_intensities : list value)
  : result (list value * list value) :=
  mins ← broadcast "min_intensities" (default_min_intensity in_image)
           channels min_intensities;
  maxs ← broadcast "max_intensities" (default_max_intensity in_image)
           channels max_intensities;
  Ok (mins, maxs).

(** Modelled from the spec: [parse_colormap_ids], the broadcaster on the
    colormap array. *)
Definition parse_colormap_ids
  (in_image : Image) (colormaps : list value) (channels : list Z)
  : result (list value) :=
  broadcast "colormaps" (default_colormap in_image) channels colormaps.

(** Modelled from the spec: [parse_gammas], the broadcaster on the gamma
    array. *)
Definition parse_gammas (channels : list Z) (gammas : list value)
  : result (list value) :=
  broadcast "gammas" default_gamma channels gammas.

(** Modelled from the spec: [remove_useless_channels] of
    pims.api.utils.processing_parameter: channels whose effective
    contribution is a no-op are dropped from the working set, and all
    parallel arrays are pruned in lockstep.  [kept_channels] lists the
    positions that stay; a position stays when the five entries found there
    are not a no-op. *)
Definition channel_stays
  (channels : list Z) (min_intensities max_intensities colormaps gammas
    : list value) (i : nat) : bool :=
  match channels !! i, min_intensities !! i, max_intensities !! i,
        colormaps !! i, gammas !! i with
  | Some c, Some lo, Some hi, Some cm, Some g =>
      negb (is_useless_channel c lo hi cm g)
  | _, _, _, _, _ => true
  end.

(** Modelled from the spec: the positions of the working set that stay. *)
Definition kept_channels
  (channels : list Z) (min_intensities max_intensities colormaps gammas
    : list value) : list nat :=
  filter (fun i => channel_stays channels min_intensities max_intensities
                     colormaps gammas i = true)
         (seq 0 (length channels)).

(** Modelled from the spec: [remove_useless_channels], the five arrays
    restricted to the positions that stay. *)
Definition remove_useless_channels
  (channels : list Z) (min_intensities max_intensities colormaps gammas
    : list value)
  : list Z * list value * list value * list value * list value :=
  let kept :=
    kept_channels channels min_intensities max_intensities colormaps gammas in
  (take_at channels kept, take_at min_intensities kept,
   take_at max_intensities kept, take_at colormaps kept,
   take_at gammas kept).

(** Modelled from the spec: [check_representation_existence] of
    pims.api.exceptions: a resource that cannot serve a single-image
    representation is refused with [NoAppropriateRepresentation]. *)
Definition check_representation_existence (in_image : option Image)
  : result Image :=
  match in_image with
  | Some i => Ok i
  | None => Raise (NoAppropriateRepresentationProblem None)
  end.
End window.

(** ** [pims/api/window.py] *)

Section show_window.
Context `{Server}.

(** Truth value of the [annotations] argument: [None] and empty collections
    are false. *)
Definition annotations_truthy (annotations : annotations_arg) : bool :=
  match annotations with
  | AnnNone => false
  | AnnParsed p => bool_decide (p ≠ [])
  | AnnDict d => bool_decide (d ≠ ∅)
  | AnnList l => bool_decide (l ≠ [])
  end.

(** Truth value of the [annotation_style] argument, a dict or [None]. *)
Definition style_truthy (annotation_style : option pydict) : bool :=
  match annotation_style with
  | Some d => bool_decide (d ≠ ∅)
  | None => false
  end.

(** [isinstance(annotations, ParsedAnnotations)] *)
Definition is_parsed (annotations : annotations_arg) : bool :=
  match annotations with
  | AnnParsed _ => true
  | _ => false
  end.

(** [ensure_list(annotations)] on a raw payload. *)
Definition ensure_annotation_list (annotations : annotations_arg)
  : list pydict :=
  match annotations with
  | AnnDict d => [d]
  | AnnList l => l
  | _ => []
  end.

(** [annotations.region]: only [ParsedAnnotations] has the attribute. *)
Definition region_of_annotations (annotations : annotations_arg)
  : result Region :=
  match annotations with
  | AnnParsed p => Ok (annotations_region p)
  | _ => Raise (AttributeError "region")
  end.

(** Lines 110-114: the reference tier when the payload gives none. *)
Definition default_reference_tier
  (in_image : Image) (tier_index_type reference_tier_index : value)
  : value :=
  match reference_tier_index with
  | VNone =>
      match tier_index_type with
      | VTierIndexType LEVEL => VInt 0
      | _ => VInt (max_zoom (pyramid in_image))
      end
  | v => v
  end.

(** Lines 107-143: the raw region payload is turned into a [Region]. *)
Definition resolve_region (in_image : Image) (region : region_arg)
  : result region_arg :=
  match region with
  | IsRegion r => Ok (IsRegion r)
  | RawRegion region =>
      tier_index_type ← getitem region (KStr "tier_index_type");
      reference_tier_index ← getitem region (KStr "reference_tier_index");
      let reference_tier_index :=
        default_reference_tier in_image tier_index_type
          reference_tier_index in
      if contains region (KStr "top") then
        top ← getitem region (KStr "top");
        left ← getitem region (KStr "left");
        width ← getitem region (KStr "width");
        height ← getitem region (KStr "height");
        r ← parse_region in_image top left width height
              reference_tier_index tier_index_type false;
        Ok (IsRegion r)
      else if contains region (KStr "ti") then
        ti ← getitem region (KStr "ti");
        check_tileindex_validity (pyramid in_image) ti
          reference_tier_index tier_index_type;;
        tier ← get_tier_at (pyramid in_image)
                 reference_tier_index tier_index_type;
        ti ← getitem region (KStr "ti");
        r ← get_ti_tile tier ti;
        Ok (IsRegion r)
      else if contains region (KTuple ["tx"; "ty"]) then
        tx ← getitem region (KStr "tx");
        ty ← getitem region (KStr "ty");
        check_tilecoord_validity (pyramid in_image) tx ty
          reference_tier_index tier_index_type;;
        tier ← get_tier_at (pyramid in_image)
                 reference_tier_index tier_index_type;
        tx ← getitem region (KStr "tx");
        ty ← getitem region (KStr "ty");
        r ← get_txty_tile tier tx ty;
        Ok (IsRegion r)
      else Ok (RawRegion region)
  end.

(** Lines 152-161: the three axes, each followed by its reduction check. *)
Definition resolve_dimensions
  (in_image : Image) (channels z_slices timepoints : value)
  (c_reduction z_reduction t_reduction : option Reduction)
  : result (list Z * list Z * list Z) :=
  let channels := ensure_list channels in
  let z_slices := ensure_list z_slices in
  let timepoints := ensure_list timepoints in
  channels ← get_channel_indexes in_image channels;
  check_reduction_validity channels c_reduction "channels";;
  z_slices ← get_zslice_indexes in_image z_slices;
  check_reduction_validity z_slices z_reduction "z_slices";;
  timepoints ← get_timepoint_indexes in_image timepoints;
  check_reduction_validity timepoints t_reduction "timepoints";;
  Ok (channels, z_slices, timepoints).

(** [locals()] as far as the array checks look into it. *)
Definition array_locals
  (min_intensities max_intensities colormaps filters gammas : list value)
  : gmap string value :=
  <["min_intensities" := VList min_intensities]>
  (<["max_intensities" := VList max_intensities]>
  (<["colormaps" := VList colormaps]>
  (<["filters" := VList filters]>
  (<["gammas" := VList gammas]> ∅)))).

(** Lines 169-182: the four per-channel arrays are checked, expanded and
    pruned. *)
Definition broadcast_channel_parameters
  (in_image : Image) (channels z_slices timepoints : list Z)
  (min_intensities max_intensities colormaps filters gammas : list value)
  : result (list Z * list value * list value * list value * list value) :=
  let array_parameters :=
    ["min_intensities"; "max_intensities"; "colormaps"; "gammas"] in
  check_array_size_parameters array_parameters
    (array_locals min_intensities max_intensities colormaps filters gammas)
    [0; 1; length channels]%nat false;;
  '(min_intensities, max_intensities) ←
    parse_intensity_bounds in_image channels z_slices timepoints
      min_intensities max_intensities;
  colormaps ← parse_colormap_ids in_image colormaps channels;
  gammas ← parse_gammas channels gammas;
  Ok (remove_useless_channels channels min_intensities max_intensities
        colormaps gammas).

(** Lines 184-188: the filters array. *)
Definition resolve_filters
  (min_intensities max_intensities colormaps filters gammas : list value)
  : result (list Filter) :=
  let array_parameters := ["filters"] in
  check_array_size_parameters array_parameters
    (array_locals min_intensities max_intensities colormaps filters gammas)
    [0; 1]%nat false;;
  parse_filter_ids filters.

(** [annotation_style[k]]: [None] cannot be subscripted. *)
Definition style_getitem (annotation_style : option pydict) (k : pykey)
  : result value :=
  match annotation_style with
  | Some d => getitem d k
  | None => Raise (TypeError "subscript")
  end.

(** Lines 193-200: what the style mode hands to the annotation parser:
    [ignore_fields], [default] and [point_envelope_length]. *)
Definition annotation_parse_settings (annotation_style : option pydict)
  : result (list string * pydict * value) :=
  mode ← style_getitem annotation_style (KStr "mode");
  match mode with
  | VStyleMode DRAWING =>
      let ignore_fields := ["fill_color"] in
      let default : pydict :=
        <[KStr "stroke_color" := VColor RED]>
        (<[KStr "stroke_width" := VInt 1]> ∅) in
      point_envelope_length ←
        style_getitem annotation_style (KStr "point_envelope_length");
      Ok (ignore_fields, default, point_envelope_length)
  | _ =>
      let ignore_fields := ["stroke_width"; "stroke_color"] in
      let default : pydict := <[KStr "fill_color" := VColor WHITE]> ∅ in
      let point_envelope_length := VNone in
      Ok (ignore_fields, default, point_envelope_length)
  end.

(** Lines 192-206: a raw annotation payload is parsed under the settings of
    its style mode. *)
Definition resolve_annotations
  (in_image : Image) (annotations : annotations_arg)
  (annotation_style : option pydict) (headers : Headers)
  : result annotations_arg :=
  if annotations_truthy annotations && style_truthy annotation_style
     && negb (is_parsed annotations)
  then
    '(ignore_fields, default, point_envelope_length) ←
      annotation_parse_settings annotation_style;
    parsed ← parse_annotations (ensure_annotation_list annotations)
               ignore_fields default point_envelope_length
               (annot_origin headers) (image_height in_image);
    Ok (AnnParsed parsed)
  else Ok annotations.

(** Lines 208-210. *)
Definition resolve_affine
  (annotations : annotations_arg) (region : region_arg)
  (out_width out_height : Z) : result (option Affine) :=
  if annotations_truthy annotations then
    annotations_region ← region_of_annotations annotations;
    affine ← annotation_crop_affine_matrix annotations_region region
               out_width out_height;
    Ok (Some affine)
  else Ok None.

(** Lines 212-213: the condition that selects the mask response. *)
Definition mask_requested
  (annotations : annotations_arg) (annotation_style : option pydict)
  : result bool :=
  if annotations_truthy annotations && style_truthy annotation_style then
    mode ← style_getitem annotation_style (KStr "mode");
    Ok (match mode with VStyleMode MASK => true | _ => false end)
  else Ok false.

Definition kwarg_value {A : Type} (default : A) (k : kwarg A) : A :=
  match k with
  | Omitted => default
  | Given a => a
  end.

(** The body of [_show_window]; [request] and [response] are the transport
    handles, which the body never reads. *)
Definition _show_window
  (path : Path) (region : region_arg)
  (height width length zoom level : value)
  (channels z_slices timepoints : value)
  (min_intensities max_intensities filters gammas threshold : value)
  (bits colorspace : value)
  (annotations : annotations_arg) (annotation_style : option pydict)
  (extension : value) (headers : Headers) (config : Settings)
  (colormaps : kwarg value)
  (c_reduction z_reduction t_reduction : kwarg (option Reduction))
  : result HttpResponse :=
  let colormaps := kwarg_value VNone colormaps in
  let c_reduction := kwarg_value (Some ADD) c_reduction in
  let z_reduction := kwarg_value None z_reduction in
  let t_reduction := kwarg_value None t_reduction in
  in_image ← check_representation_existence (get_cached_spatial path);
  region ← resolve_region in_image region;
  '(out_format, mimetype) ← get_output_format extension (accept headers);
  check_zoom_validity (pyramid in_image) zoom;;
  check_level_validity (pyramid in_image) level;;
  req_size ← get_window_output_dimensions in_image region
               height width length zoom level;
  out_size ← safeguard_output_dimensions (safe_mode headers)
               (output_size_limit config) req_size.1 req_size.2;
  let '(out_width, out_height) := out_size in
  '(channels, z_slices, timepoints) ←
    resolve_dimensions in_image channels z_slices timepoints
      c_reduction z_reduction t_reduction;
  let min_intensities := ensure_list min_intensities in
  let max_intensities := ensure_list max_intensities in
  let colormaps := ensure_list colormaps in
  let filters := ensure_list filters in
  let gammas := ensure_list gammas in
  '(channels, min_intensities, max_intensities, colormaps, gammas) ←
    broadcast_channel_parameters in_image channels z_slices timepoints
      min_intensities max_intensities colormaps filters gammas;
  filters ← resolve_filters min_intensities max_intensities colormaps
              filters gammas;
  out_bitdepth ← parse_bitdepth in_image bits;
  annotations ← resolve_annotations in_image annotations annotation_style
                  headers;
  affine ← resolve_affine annotations region out_width out_height;
  mask ← mask_requested annotations annotation_style;
  let window :=
    if (mask : bool) then
      MaskResponse in_image annotations affine
        out_width out_height out_bitdepth out_format
    else
      WindowResponse in_image channels z_slices timepoints
        region out_format out_width out_height
        c_reduction z_reduction t_reduction
        gammas filters colormaps
        min_intensities max_intensities false
        out_bitdepth threshold colorspace
        annotations affine annotation_style in
  Ok {| window := window; mimetype := mimetype;
        req_size_header := req_size; out_size_header := out_size |}.

(** What a response was built from. *)
Definition response_is_mask (w : ImageResponse) : bool :=
  match w with
  | MaskResponse _ _ _ _ _ _ _ => true
  | _ => false
  end.

Definition response_annotations (w : ImageResponse) : annotations_arg :=
  match w with
  | MaskResponse _ annotations _ _ _ _ _ => annotations
  | WindowResponse _ _ _ _ _ _ _ _ _ _ _ _ _ _ _ _ _ _ _ _ annotations _ _ =>
      annotations
  end.

Definition response_affine (w : ImageResponse) : option Affine :=
  match w with
  | MaskResponse _ _ affine _ _ _ _ => affine
  | WindowResponse _ _ _ _ _ _ _ _ _ _ _ _ _ _ _ _ _ _ _ _ _ affine _ =>
      affine
  end.

Definition response_image (w : ImageResponse) : Image :=
  match w with
  | MaskResponse in_image _ _ _ _ _ _ => in_image
  | WindowResponse in_image _ _ _ _ _ _ _ _ _ _ _ _ _ _ _ _ _ _ _ _ _ _ =>
      in_image
  end.

(** [(out_width, out_height)] as handed to the response. *)
Definition response_size (w : ImageResponse) : Z * Z :=
  match w with
  | MaskResponse _ _ _ out_width out_height _ _ => (out_width, out_height)
  | WindowResponse _ _ _ _ _ _ out_width out_height
      _ _ _ _ _ _ _ _ _ _ _ _ _ _ _ => (out_width, out_height)
  end.

Definition response_format (w : ImageResponse) : OutFormat :=
  match w with
  | MaskResponse _ _ _ _ _ _ out_format => out_format
  | WindowResponse _ _ _ _ _ out_format _ _ _ _ _ _ _ _ _ _ _ _ _ _ _ _ _ =>
      out_format
  end.

(** The region a windowed image is cut from; the mask response holds none. *)
Definition response_region (w : ImageResponse) : option region_arg :=
  match w with
  | MaskResponse _ _ _ _ _ _ _ => None
  | WindowResponse _ _ _ _ region _ _ _ _ _ _ _ _ _ _ _ _ _ _ _ _ _ _ =>
      Some region
  end.

(** The body of a window request, the keyword arguments of
    [body.model_dump]. *)
Record WindowRequest : Type := {
  body_region : region_arg;
  body_height : value;
  body_width : value;
  body_length : value;
  body_zoom : value;
  body_level : value;
  body_channels : value;
  body_z_slices : value;
  body_timepoints : value;
  body_min_intensities : value;
  body_max_intensities : value;
  body_filters : value;
  body_gammas : value;
  body_threshold : value;
  body_bits : value;
  body_colorspace : value;
  body_annotations : annotations_arg;
  body_annotation_style : option pydict;
  body_colormaps : kwarg value;
  body_c_reduction : kwarg (option Reduction);
  body_z_reduction : kwarg (option Reduction);
  body_t_reduction : kwarg (option Reduction)
}.

(** The route: its dependencies are resolved first, in the order of the
    signature, then the body runs. *)
Definition show_window_with_body
  (body : WindowRequest) (fp : string) (extension : value)
  (headers : Headers) (config : Settings) : result HttpResponse :=
  path ← imagepath_parameter fp;
  extension ← extension_path_parameter extension;
  _show_window path (body_region body)
    (body_height body) (body_width body) (body_length body)
    (body_zoom body) (body_level body)
    (body_channels body) (body_z_slices body) (body_timepoints body)
    (body_min_intensities body) (body_max_intensities body)
    (body_filters body) (body_gammas body) (body_threshold body)
    (body_bits body) (body_colorspace body)
    (body_annotations body) (body_annotation_style body)
    extension headers config
    (body_colormaps body) (body_c_reduction body)
    (body_z_reduction body) (body_t_reduction body).
End show_window.

(** ** A small server, to run the endpoint on concrete requests

    One image of 1024 x 768 pixels with three channels, one focal plane and
    one timepoint, tiled in 256 x 256 tiles (a 4 x 3 grid), stored as
    [123/my-file.ext]; [123/collection] exists but holds no single image. *)
Module Demo.

Record image : Type := {
  im_width : Z;
  im_height : Z;
  im_channels : list Z;
  tile_size : Z
}.

Definition slide : image :=
  {| im_width := 1024; im_height := 768; im_channels := [0; 1; 2];
     tile_size := 256 |}.

(** A region as (top, left, width, height). *)
Definition rect : Type := Z * Z * Z * Z.

#[local] Instance domain : Domain :=
  {| Image := image; Pyramid := image; Tier := image; Region := rect;
     ParsedAnnotation := list string * value; Affine := rect * (Z * Z);
     OutFormat := string; Filter := value |}.

#[local] Instance fs : FileSystem :=
  {| exists_ p :=
       bool_decide (filepath p ∈ ["123/my-file.ext"; "123/collection"]);
     is_single p := bool_decide (filepath p = "123/my-file.ext") |}.

Definition grid_columns (i : image) : Z :=
  (im_width i + tile_size i - 1) / tile_size i.

Definition grid_rows (i : image) : Z :=
  (im_height i + tile_size i - 1) / tile_size i.

Definition in_range (lo x hi : Z) : bool :=
  bool_decide (lo <= x) && bool_decide (x < hi).

Definition demo_parse_region
  (i : image) (top left width height ref type : value) (silent_oob : bool)
  : result rect :=
  match top, left, width, height with
  | VInt t, VInt l, VInt w, VInt h =>
      if bool_decide (0 <= t) && bool_decide (0 <= l)
         && bool_decide (t + h <= im_height i)
         && bool_decide (l + w <= im_width i) || silent_oob
      then Ok (t, l, w, h)
      else Raise OutOfBoundsRegion
  | _, _, _, _ => Raise (TypeError "region")
  end.

Definition demo_check_tileindex (p : image) (ti ref type : value)
  : result () :=
  match ti with
  | VInt n =>
      if in_range 0 n (grid_columns p * grid_rows p) then Ok ()
      else Raise InvalidTileAddress
  | _ => Raise InvalidTileAddress
  end.

Definition demo_check_tilecoord (p : image) (tx ty ref type : value)
  : result () :=
  match tx, ty with
  | VInt x, VInt y =>
      if in_range 0 x (grid_columns p) && in_range 0 y (grid_rows p)
      then Ok ()
      else Raise InvalidTileAddress
  | _, _ => Raise InvalidTileAddress
  end.

Definition demo_ti_tile (t : image) (ti : value) : result rect :=
  match ti with
  | VInt n =>
      Ok (n / grid_columns t * tile_size t, n mod grid_columns t * tile_size t,
          tile_size t, tile_size t)
  | _ => Raise (TypeError "ti")
  end.

Definition demo_txty_tile (t : image) (tx ty : value) : result rect :=
  match tx, ty with
  | VInt x, VInt y =>
      Ok (y * tile_size t, x * tile_size t, tile_size t, tile_size t)
  | _, _ => Raise (TypeError "tx")
  end.

Definition demo_check_tier (p : image) (v : value) : result () :=
  match v with
  | VNone | VInt 0 => Ok ()
  | _ => Raise InvalidZoomOrLevel
  end.

Definition demo_output_dimensions
  (i : image) (region : @region_arg domain)
  (height width length zoom level : value) : result (Z * Z) :=
  match region with
  | IsRegion (_, _, w, h) => Ok (w, h)
  | RawRegion _ => Raise (AttributeError "width")
  end.

Definition demo_safeguard (safe_mode : value) (limit w h : Z)
  : result (Z * Z) :=
  Ok (Z.min w limit, Z.min h limit).

Fixpoint ints_of (l : list value) : result (list Z) :=
  match l with
  | [] => Ok []
  | VInt z :: rest => zs ← ints_of rest; Ok (z :: zs)
  | _ :: _ => Raise (TypeError "index")
  end.

Definition demo_indexes (all : list Z) (selection : list value)
  : result (list Z) :=
  match selection with
  | [] => Ok all
  | _ => ints_of selection
  end.

Definition demo_useless (c : Z) (lo hi cm g : value) : bool :=
  match cm with
  | VStr s => bool_decide (s = "BLACK")
  | _ => false
  end.

#[local] Instance server : Server :=
  {| server_fs := fs;
     get_cached_spatial p :=
       if bool_decide (filepath p = "123/my-file.ext")
       then Some (slide : Image)
       else None;
     pyramid := fun i : image => i;
     max_zoom := fun _ : image => 0;
     image_height := im_height;
     parse_region := demo_parse_region;
     check_tileindex_validity := demo_check_tileindex;
     check_tilecoord_validity := demo_check_tilecoord;
     get_tier_at := fun (p : image) _ _ => Ok p;
     get_ti_tile := demo_ti_tile;
     get_txty_tile := demo_txty_tile;
     extension_path_parameter := fun v => Ok v;
     get_output_format := fun _ _ => Ok ("PNG", "image/png");
     check_zoom_validity := demo_check_tier;
     check_level_validity := demo_check_tier;
     get_window_output_dimensions := demo_output_dimensions;
     safeguard_output_dimensions := demo_safeguard;
     get_channel_indexes := fun i sel => demo_indexes (im_channels i) sel;
     get_zslice_indexes := fun _ sel => demo_indexes [0] sel;
     get_timepoint_indexes := fun _ sel => demo_indexes [0] sel;
     default_min_intensity := fun _ _ => VInt 0;
     default_max_intensity := fun _ _ => VInt 255;
     default_colormap := fun _ _ => VStr "DEFAULT";
     default_gamma := fun _ => VInt 1;
     is_useless_channel := demo_useless;
     parse_filter_ids := fun l => Ok l;
     parse_bitdepth := fun _ bits =>
       match bits with VInt b => Ok b | _ => Ok 8 end;
     parse_annotations := fun l ignore_fields _ point_envelope_length _ _ =>
       Ok ((fun _ : pydict => (ignore_fields, point_envelope_length)) <$> l);
     annotations_region := fun _ => (0, 0, 256, 256);
     annotation_crop_affine_matrix := fun r _ w h => Ok (r, (w, h)) |}.

Definition level_tier : pydict :=
  <[KStr "tier_index_type" := VTierIndexType LEVEL]>
  (<[KStr "reference_tier_index" := VInt 0]> ∅).

(** A tile-coordinate payload: tile (1, 2) of level 0. *)
Definition tile_coordinate_payload : pydict :=
  <[KStr "tx" := VInt 1]> (<[KStr "ty" := VInt 2]> level_tier).

(** A normalized payload: the 100 x 100 window at the origin. *)
Definition normalized_payload : pydict :=
  <[KStr "top" := VInt 0]> (<[KStr "left" := VInt 0]>
  (<[KStr "width" := VInt 100]> (<[KStr "height" := VInt 100]> level_tier))).

(** A payload with two descriptors at once. *)
Definition ambiguous_payload : pydict :=
  <[KStr "ti" := VInt 5]> normalized_payload.

(** A normalized payload that lacks [left]. *)
Definition incomplete_payload : pydict :=
  <[KStr "top" := VInt 0]>
  (<[KStr "width" := VInt 100]> (<[KStr "height" := VInt 100]> level_tier)).

(** The normalized payload with no reference tier. *)
Definition open_tier_payload : pydict :=
  <[KStr "reference_tier_index" := VNone]> normalized_payload.

(** One raw annotation, a point. *)
Definition point_annotation : pydict :=
  <[KStr "geometry" := VStr "POINT(10 10)"]> ∅.

Definition drawing_style : pydict :=
  <[KStr "mode" := VStyleMode DRAWING]>
  (<[KStr "point_envelope_length" := VInt 8]> ∅).

Definition mask_style : pydict :=
  <[KStr "mode" := VStyleMode MASK]>
  (<[KStr "point_envelope_length" := VInt 8]> ∅).

Definition plain_headers : @Headers :=
  {| accept := VStr "image/png"; safe_mode := VStr "SAFE_REJECT";
     annot_origin := VStr "LEFT_TOP" |}.

Definition settings : Settings := {| output_size_limit := 10000 |}.

(** The response to the normalized payload with the point annotation under
    the mask style. *)
Definition mask_response : @HttpResponse domain :=
  {| window :=
       @MaskResponse domain slide
         (@AnnParsed domain [(["stroke_width"; "stroke_color"], VNone)])
         (Some ((0, 0, 256, 256), (100, 100))) 100 100 8 "PNG";
     mimetype := "image/png";
     req_size_header := (100, 100);
     out_size_header := (100, 100) |}.

(** The response to the normalized payload alone. *)
Definition window_response : @HttpResponse domain :=
  {| window :=
       @WindowResponse domain slide [0; 1; 2] [0] [0]
         (@IsRegion domain (0, 0, 100, 100)) "PNG" 100 100
         (Some ADD) None None
         [VInt 1; VInt 1; VInt 1] []
         [VStr "DEFAULT"; VStr "DEFAULT"; VStr "DEFAULT"]
         [VInt 0; VInt 0; VInt 0] [VInt 255; VInt 255; VInt 255] false
         8 VNone VNone AnnNone None None;
     mimetype := "image/png";
     req_size_header := (100, 100);
     out_size_header := (100, 100) |}.

(** The request body that holds the normalized payload and nothing else. *)
Definition plain_body : @WindowRequest domain :=
  {| body_region := RawRegion normalized_payload;
     body_height := VNone; body_width := VNone; body_length := VNone;
     body_zoom := VNone; body_level := VNone;
     body_channels := VNone; body_z_slices := VNone;
     body_timepoints := VNone;
     body_min_intensities := VNone; body_max_intensities := VNone;
     body_filters := VNone; body_gammas := VNone; body_threshold := VNone;
     body_bits := VNone; body_colorspace := VNone;
     body_annotations := AnnNone; body_annotation_style := None;
     body_colormaps := Omitted; body_c_reduction := Omitted;
     body_z_reduction := Omitted; body_t_reduction := Omitted |}.

(** [_show_window] on the image, with every optional argument left out
    except the ones given here. *)
Definition show
  (region : pydict) (channels filters : value)
  (annotations : @annotations_arg domain) (annotation_style : option pydict)
  (c_reduction : kwarg (option Reduction)) : result (@HttpResponse domain) :=
  @_show_window domain server (from_filepath "123/my-file.ext")
    (RawRegion region) VNone VNone VNone VNone VNone
    channels VNone VNone VNone VNone filters VNone VNone VNone VNone
    annotations annotation_style (VStr ".png") plain_headers settings
    Omitted c_reduction Omitted Omitted.

End Demo.

(** ** Properties of [pims/api/utils/parameter.py] *)

Lemma bind_Ok {A B : Type} (m : result A) (k : A -> result B) (b : B) :
  m ≫= k = Ok b <-> exists a, m = Ok a /\ k a = Ok b.
Proof.
  destruct m as [a|p]; simpl; split.
  - intros Hk. exists a. split; [reflexivity | exact Hk].
  - intros (a' & Ha & Hk). injection Ha as ->. exact Hk.
  - discriminate.
  - intros (a' & Ha & _). discriminate.
Qed.

Lemma replacement_is_clean :
  Forall (fun c => c ∉ bad_chars) default_replacement.
Proof.
  unfold default_replacement. constructor; [| constructor].
  apply (bool_decide_eq_false_1 (45%N ∈ bad_chars)). vm_compute. reflexivity.
Qed.

Lemma replaced_chars_clean (replacement : pystr) (sanitized : pystr) :
  Forall (fun c => c ∉ bad_chars) replacement ->
  Forall (fun c => c ∉ bad_chars)
    (concat (map (fun c => if bool_decide (c ∈ bad_chars)
                           then replacement else [c]) sanitized)).
Proof.
  intros Hrep. induction sanitized as [|c rest IH]; simpl.
  - constructor.
  - apply Forall_app. split; [| exact IH].
    destruct (bool_decide (c ∈ bad_chars)) eqn:Hc.
    + exact Hrep.
    + constructor; [| constructor].
      apply (bool_decide_eq_false_1 (c ∈ bad_chars)). exact Hc.
Qed.

(** C10. With the default replacement, every character of the string that
    [sanitize_filename] returns is outside the list of bad characters (so it
    is the replacement character or a character that was never bad),
    whatever the library sanitizer returned; the function raises only what
    the library sanitizer raised. *)
Theorem sanitize_filename_has_no_bad_char
  (lib : pystr -> pystr -> result pystr) (filename : pystr) :
  match sanitize_filename lib filename default_replacement with
  | Ok s =>
      Forall (fun c => c ∉ bad_chars) s /\
      Forall (fun c => c ∈ default_replacement \/ c ∉ bad_chars) s
  | Raise p => lib filename default_replacement = Raise p
  end.
Proof.
  unfold sanitize_filename.
  destruct (lib filename default_replacement) as [sanitized|p]; simpl.
  - pose proof (replaced_chars_clean default_replacement sanitized
                  replacement_is_clean) as Hclean.
    split; [exact Hclean |].
    eapply Forall_impl; [exact Hclean |]. intros c Hc. right. exact Hc.
  - reflexivity.
Qed.

Section path_properties.
Context `{Server}.

(** C8. [imagepath_parameter] fails with the not-found problem exactly when
    the file is absent, with the no-appropriate-representation problem
    exactly when the file exists and is not a single image, and returns the
    path exactly when both checks pass; when it fails, the route returns
    that failure, whatever the image behind the path is. *)
Theorem imagepath_parameter_outcomes
  (fp : string) (body : WindowRequest) (extension : value)
  (headers : Headers) (config : Settings) :
  (imagepath_parameter fp = Raise (FilepathNotFoundProblem (from_filepath fp))
   <-> exists_ (from_filepath fp) = false) /\
  (imagepath_parameter fp
     = Raise (NoAppropriateRepresentationProblem (Some (from_filepath fp)))
   <-> exists_ (from_filepath fp) = true
       /\ is_single (from_filepath fp) = false) /\
  (imagepath_parameter fp = Ok (from_filepath fp)
   <-> exists_ (from_filepath fp) = true
       /\ is_single (from_filepath fp) = true) /\
  match imagepath_parameter fp with
  | Raise p =>
      show_window_with_body body fp extension headers config = Raise p
  | Ok path => path = from_filepath fp
  end.
Proof.
  unfold show_window_with_body, imagepath_parameter.
  destruct (exists_ (from_filepath fp)) eqn:He;
    destruct (is_single (from_filepath fp)) eqn:Hs; simpl;
    repeat split; intros; try discriminate; try reflexivity;
    try (destruct_and?; discriminate).
Qed.
End path_properties.

(** ** Properties of the region resolver *)

Lemma getitem_Some (d : pydict) (k : pykey) (v : value) :
  d !! k = Some v -> getitem d k = Ok v.
Proof. intros Hk. unfold getitem. rewrite Hk. reflexivity. Qed.

Lemma contains_Some (d : pydict) (k : pykey) (v : value) :
  d !! k = Some v -> contains d k = true.
Proof.
  intros Hk. unfold contains. apply bool_decide_eq_true_2. eauto.
Qed.

Lemma contains_None (d : pydict) (k : pykey) :
  d !! k = None -> contains d k = false.
Proof.
  intros Hk. unfold contains. apply bool_decide_eq_false_2.
  rewrite Hk. intros [v Hv]. discriminate.
Qed.

Lemma string_keyed_no_tuple (d : pydict) (l : list string) :
  string_keyed d -> d !! KTuple l = None.
Proof.
  intros Hd. destruct (d !! KTuple l) as [v|] eqn:Hl; [| reflexivity].
  apply (map_Forall_lookup_1 _ _ _ _ Hd) in Hl. discriminate.
Qed.

Section region_properties.
Context `{Server}.

(** C1 (what the code does instead). A payload with string keys that holds
    no [top] and no [ti], a tile-coordinate payload among them, is handed
    back as the raw dictionary: the membership test of line 134 looks for a
    tuple key, which such a payload never has, so the tile coordinates are
    neither validated nor translated into a [Region]. *)
Theorem tile_coordinates_left_unresolved
  (in_image : Image) (region : pydict) (tier_index_type reference : value) :
  string_keyed region ->
  region !! KStr "tier_index_type" = Some tier_index_type ->
  region !! KStr "reference_tier_index" = Some reference ->
  region !! KStr "top" = None ->
  region !! KStr "ti" = None ->
  resolve_region in_image (RawRegion region) = Ok (RawRegion region).
Proof.
  intros Hkeys Htype Hreference Htop Hti. unfold resolve_region.
  rewrite (getitem_Some _ _ _ Htype), (getitem_Some _ _ _ Hreference).
  simpl.
  rewrite (contains_None _ _ Htop), (contains_None _ _ Hti).
  rewrite (contains_None _ _ (string_keyed_no_tuple _ ["tx"; "ty"] Hkeys)).
  reflexivity.
Qed.

(** The two resolving modes written out, for a payload that holds the two
    tier keys: with [top], [left], [width] and [height] the region parser is
    called on them, without suppressing its bounds check; without [top] and
    with [ti] the tile index is validated and the tile of the tier is taken;
    with none of [top], [ti], [tx], [ty] the dictionary comes back. *)
Theorem region_mode_by_key_precedence
  (in_image : Image) (region : pydict) (tier_index_type reference : value) :
  region !! KStr "tier_index_type" = Some tier_index_type ->
  region !! KStr "reference_tier_index" = Some reference ->
  (forall top left width height : value,
     region !! KStr "top" = Some top ->
     region !! KStr "left" = Some left ->
     region !! KStr "width" = Some width ->
     region !! KStr "height" = Some height ->
     resolve_region in_image (RawRegion region)
     = (r ← parse_region in_image top left width height
             (default_reference_tier in_image tier_index_type reference)
             tier_index_type false;
        Ok (IsRegion r))) /\
  (forall ti : value,
     region !! KStr "top" = None ->
     region !! KStr "ti" = Some ti ->
     resolve_region in_image (RawRegion region)
     = (check_tileindex_validity (pyramid in_image) ti
          (default_reference_tier in_image tier_index_type reference)
          tier_index_type;;
        tier ← get_tier_at (pyramid in_image)
                 (default_reference_tier in_image tier_index_type reference)
                 tier_index_type;
        r ← get_ti_tile tier ti;
        Ok (IsRegion r))) /\
  (string_keyed region ->
   region !! KStr "top" = None ->
   region !! KStr "ti" = None ->
   region !! KStr "tx" = None ->
   region !! KStr "ty" = None ->
   resolve_region in_image (RawRegion region) = Ok (RawRegion region)).
Proof.
  intros Htype Hreference. unfold resolve_region.
  rewrite (getitem_Some _ _ _ Htype), (getitem_Some _ _ _ Hreference).
  simpl. repeat split.
  - intros top left width height Htop Hleft Hwidth Hheight.
    rewrite (contains_Some _ _ _ Htop).
    rewrite (getitem_Some _ _ _ Htop), (getitem_Some _ _ _ Hleft),
      (getitem_Some _ _ _ Hwidth), (getitem_Some _ _ _ Hheight).
    reflexivity.
  - intros ti Htop Hti.
    rewrite (contains_None _ _ Htop), (contains_Some _ _ _ Hti).
    rewrite (getitem_Some _ _ _ Hti). reflexivity.
  - intros Hkeys Htop Hti _ _.
    rewrite (contains_None _ _ Htop), (contains_None _ _ Hti).
    rewrite (contains_None _ _ (string_keyed_no_tuple _ ["tx"; "ty"] Hkeys)).
    reflexivity.
Qed.
End region_properties.

(** *** The region resolver on the small server *)

Lemma tile_coordinate_payload_string_keyed :
  string_keyed Demo.tile_coordinate_payload.
Proof.
  apply (bool_decide_unpack (string_keyed Demo.tile_coordinate_payload)).
  vm_compute. exact I.
Qed.

(** The tile-coordinate payload (1, 2) comes back as the raw dictionary,
    although the tile exists and its rectangle is known to the tier; the
    request then fails on the unresolved region. *)
Lemma tile_coordinates_left_unresolved_witness :
  @check_tilecoord_validity _ Demo.server Demo.slide
    (VInt 1) (VInt 2) (VInt 0) (VTierIndexType LEVEL) = Ok () /\
  @get_txty_tile _ Demo.server Demo.slide (VInt 1) (VInt 2)
  = Ok (512, 256, 256, 256) /\
  @resolve_region _ Demo.server Demo.slide
    (RawRegion Demo.tile_coordinate_payload)
  = Ok (RawRegion Demo.tile_coordinate_payload) /\
  Demo.show Demo.tile_coordinate_payload VNone VNone AnnNone None Omitted
  = Raise (AttributeError "width").
Proof.
  split; [vm_compute; reflexivity |].
  split; [vm_compute; reflexivity |].
  split; [| vm_compute; reflexivity].
  apply (@tile_coordinates_left_unresolved _ Demo.server Demo.slide
           Demo.tile_coordinate_payload (VTierIndexType LEVEL) (VInt 0)).
  - exact tile_coordinate_payload_string_keyed.
  - vm_compute. reflexivity.
  - vm_compute. reflexivity.
  - vm_compute. reflexivity.
  - vm_compute. reflexivity.
Defined.

(** C2 (as stated, refuted). A payload that holds both the normalized
    descriptor and a tile index is not rejected: it is resolved, in
    normalized mode, and the request is served. *)
Lemma ambiguous_payload_is_resolved :
  contains Demo.ambiguous_payload (KStr "top") = true /\
  contains Demo.ambiguous_payload (KStr "ti") = true /\
  @resolve_region _ Demo.server Demo.slide
    (RawRegion Demo.ambiguous_payload)
  = Ok (@IsRegion Demo.domain (0, 0, 100, 100)) /\
  is_ok (Demo.show Demo.ambiguous_payload VNone VNone AnnNone None Omitted)
  = true.
Proof. repeat split; vm_compute; reflexivity. Qed.

(** ** Properties of the parameter broadcaster *)

Lemma array_locals_lookup
  (min_intensities max_intensities colormaps filters gammas : list value) :
  let locals :=
    array_locals min_intensities max_intensities colormaps filters gammas in
  locals !! "min_intensities" = Some (VList min_intensities) /\
  locals !! "max_intensities" = Some (VList max_intensities) /\
  locals !! "colormaps" = Some (VList colormaps) /\
  locals !! "filters" = Some (VList filters) /\
  locals !! "gammas" = Some (VList gammas).
Proof. unfold array_locals. repeat split; by simplify_map_eq. Qed.

Lemma broadcast_fits
  (name : string) (default : Z -> value) (channels : list Z)
  (array : list value) :
  length array ∈ [0; 1; length channels]%nat ->
  exists expanded,
    broadcast name default channels array = Ok expanded /\
    length expanded = length channels.
Proof.
  intros Hfits. unfold broadcast.
  destruct array as [|x [|y rest]].
  - eexists. split; [reflexivity |]. apply length_fmap.
  - eexists. split; [reflexivity |]. apply length_fmap.
  - assert (length (x :: y :: rest) = length channels) as Hn.
    { set_unfold. simpl in *. lia. }
    rewrite bool_decide_eq_true_2 by exact Hn.
    eexists. split; [reflexivity | exact Hn].
Qed.

Lemma broadcast_mismatch
  (name : string) (default : Z -> value) (channels : list Z)
  (array : list value) :
  length array ∉ [0; 1; length channels]%nat ->
  broadcast name default channels array = Raise (ArraySizeMismatch name).
Proof.
  intros Hbad. unfold broadcast.
  destruct array as [|x [|y rest]].
  - exfalso. apply Hbad. set_solver.
  - exfalso. apply Hbad. set_solver.
  - rewrite bool_decide_eq_false_2; [reflexivity |].
    intros Hn. apply Hbad. rewrite Hn. set_solver.
Qed.

Section broadcaster_properties.
Context `{Server}.

(** C3 (amended). With n the number of resolved channels: each of
    min_intensities, max_intensities, colormaps and gammas is refused with
    an array-size mismatch naming it when its length is not 0, 1 or n (the
    first such array, in that order, is the one named); when the four
    lengths are all among 0, 1 and n the arrays are accepted and each is
    expanded to a per-channel vector of length exactly n, which is what the
    pruning step receives.  For filters the allowed lengths are 0 and 1
    only: any other length, n included, is refused with an array-size
    mismatch naming filters. *)
Theorem channel_arrays_checked_and_expanded
  (in_image : Image) (channels z_slices timepoints : list Z)
  (min_intensities max_intensities colormaps filters gammas : list value) :
  let n := length channels in
  let fits (a : list value) := length a ∈ [0; 1; n]%nat in
  let run :=
    broadcast_channel_parameters in_image channels z_slices timepoints
      min_intensities max_intensities colormaps filters gammas in
  (~ fits min_intensities ->
   run = Raise (ArraySizeMismatch "min_intensities")) /\
  (fits min_intensities -> ~ fits max_intensities ->
   run = Raise (ArraySizeMismatch "max_intensities")) /\
  (fits min_intensities -> fits max_intensities -> ~ fits colormaps ->
   run = Raise (ArraySizeMismatch "colormaps")) /\
  (fits min_intensities -> fits max_intensities -> fits colormaps ->
   ~ fits gammas ->
   run = Raise (ArraySizeMismatch "gammas")) /\
  (fits min_intensities -> fits max_intensities -> fits colormaps ->
   fits gammas ->
   exists mins maxs cmaps gams : list value,
     length mins = n /\ length maxs = n /\
     length cmaps = n /\ length gams = n /\
     parse_intensity_bounds in_image channels z_slices timepoints
       min_intensities max_intensities = Ok (mins, maxs) /\
     parse_colormap_ids in_image colormaps channels = Ok cmaps /\
     parse_gammas channels gammas = Ok gams /\
     run = Ok (remove_useless_channels channels mins maxs cmaps gams)) /\
  (length filters ∈ [0; 1]%nat ->
   resolve_filters min_intensities max_intensities colormaps filters gammas
   = parse_filter_ids filters) /\
  (length filters ∉ [0; 1]%nat ->
   resolve_filters min_intensities max_intensities colormaps filters gammas
   = Raise (ArraySizeMismatch "filters")).
Proof.
  intros n fits run. subst run.
  unfold broadcast_channel_parameters, resolve_filters.
  destruct (array_locals_lookup min_intensities max_intensities colormaps
              filters gammas) as (Hmin & Hmax & Hcmap & Hfil & Hgam).
  simpl in Hmin, Hmax, Hcmap, Hfil, Hgam.
  unfold check_array_size_parameters.
  rewrite Hmin, Hmax, Hcmap, Hgam, Hfil. unfold check_array_size.
  fold n. subst fits. simpl.
  repeat split.
  - intros Hbad. rewrite (bool_decide_eq_false_2 _ Hbad). reflexivity.
  - intros H1 Hbad.
    rewrite (bool_decide_eq_true_2 _ H1), (bool_decide_eq_false_2 _ Hbad).
    reflexivity.
  - intros H1 H2 Hbad.
    rewrite (bool_decide_eq_true_2 _ H1), (bool_decide_eq_true_2 _ H2),
      (bool_decide_eq_false_2 _ Hbad).
    reflexivity.
  - intros H1 H2 H3 Hbad.
    rewrite (bool_decide_eq_true_2 _ H1), (bool_decide_eq_true_2 _ H2),
      (bool_decide_eq_true_2 _ H3), (bool_decide_eq_false_2 _ Hbad).
    reflexivity.
  - intros H1 H2 H3 H4.
    rewrite (bool_decide_eq_true_2 _ H1), (bool_decide_eq_true_2 _ H2),
      (bool_decide_eq_true_2 _ H3), (bool_decide_eq_true_2 _ H4).
    unfold parse_intensity_bounds, parse_colormap_ids, parse_gammas.
    destruct (broadcast_fits "min_intensities"
                (default_min_intensity in_image) channels _ H1)
      as (mins & -> & Lmins).
    destruct (broadcast_fits "max_intensities"
                (default_max_intensity in_image) channels _ H2)
      as (maxs & -> & Lmaxs).
    destruct (broadcast_fits "colormaps"
                (default_colormap in_image) channels _ H3)
      as (cmaps & -> & Lcmaps).
    destruct (broadcast_fits "gammas" default_gamma channels _ H4)
      as (gams & -> & Lgams).
    exists mins, maxs, cmaps, gams. simpl. repeat split; assumption.
  - intros Hfits. rewrite (bool_decide_eq_true_2 _ Hfits). reflexivity.
  - intros Hbad. rewrite (bool_decide_eq_false_2 _ Hbad). reflexivity.
Qed.
End broadcaster_properties.

(** *** The broadcaster on the small server *)

(** C3 (as stated, refuted). With three resolved channels, a filters array
    of length three is refused, although three is the channel count. *)
Lemma filters_of_channel_count_refused :
  @get_channel_indexes _ Demo.server Demo.slide
    [VInt 0; VInt 1; VInt 2] = Ok [0; 1; 2] /\
  length (ensure_list (VList [VStr "a"; VStr "b"; VStr "c"])) = 3%nat /\
  @resolve_filters _ Demo.server [] [] [] [VStr "a"; VStr "b"; VStr "c"] []
  = Raise (ArraySizeMismatch "filters") /\
  Demo.show Demo.normalized_payload (VList [VInt 0; VInt 1; VInt 2])
    (VList [VStr "a"; VStr "b"; VStr "c"]) AnnNone None Omitted
  = Raise (ArraySizeMismatch "filters").
Proof. repeat split; vm_compute; reflexivity. Qed.

(** No minimum, one maximum and three channels: the minimum becomes three
    defaults and the maximum is repeated three times. *)
Lemma channel_arrays_checked_and_expanded_witness :
  exists mins maxs cmaps gams : list value,
    length mins = 3%nat /\ length maxs = 3%nat /\
    length cmaps = 3%nat /\ length gams = 3%nat /\
    @parse_intensity_bounds _ Demo.server Demo.slide [0; 1; 2] [0] [0]
      [] [VInt 10] = Ok (mins, maxs) /\
    @parse_colormap_ids _ Demo.server Demo.slide [] [0; 1; 2] = Ok cmaps /\
    @parse_gammas _ Demo.server [0; 1; 2] [] = Ok gams /\
    @broadcast_channel_parameters _ Demo.server Demo.slide [0; 1; 2] [0] [0]
      [] [VInt 10] [] [] []
    = Ok (@remove_useless_channels _ Demo.server
            [0; 1; 2] mins maxs cmaps gams).
Proof.
  apply (@channel_arrays_checked_and_expanded _ Demo.server Demo.slide
           [0; 1; 2] [0] [0] [] [VInt 10] [] [] []);
    apply (bool_decide_unpack _); vm_compute; exact I.
Defined.

(** ** Properties of the dimension resolver *)

Lemma check_reduction_validity_fails
  (values : list Z) (name : string) :
  (1 < length values)%nat ->
  check_reduction_validity values None name = Raise (ReductionRequired name).
Proof.
  intros Hmany. unfold check_reduction_validity.
  rewrite (bool_decide_eq_true_2 _ Hmany). reflexivity.
Qed.

Lemma check_reduction_validity_passes
  (values : list Z) (reduc : option Reduction) (name : string) :
  (length values <= 1)%nat \/ reduc <> None ->
  check_reduction_validity values reduc name = Ok ().
Proof.
  intros [Hfew | Hreduc]; unfold check_reduction_validity.
  - rewrite bool_decide_eq_false_2 by lia. reflexivity.
  - rewrite (bool_decide_eq_false_2 (reduc = None)) by exact Hreduc.
    rewrite andb_false_r. reflexivity.
Qed.

Section dimension_properties.
Context `{Server}.

(** C4 (amended). The call is the one [_show_window] makes, with the
    defaults of its signature: [ADD] for the channel reduction, none for the
    z-slice and timepoint reductions.  For z-slices and timepoints, more
    than one resolved index without a reduction (left out or [None]) fails
    with the reduction-required error of that axis; for channels it fails
    only when [None] is passed explicitly, because a reduction that is left
    out is [ADD]; an axis with at most one index, or with a reduction,
    passes its check, and when the three axes pass the resolution returns
    the three index sequences. *)
Theorem reduction_required_per_axis
  (in_image : Image) (channels z_slices timepoints : value)
  (c_reduction z_reduction t_reduction : kwarg (option Reduction))
  (cs zs ts : list Z) :
  get_channel_indexes in_image (ensure_list channels) = Ok cs ->
  get_zslice_indexes in_image (ensure_list z_slices) = Ok zs ->
  get_timepoint_indexes in_image (ensure_list timepoints) = Ok ts ->
  let run :=
    resolve_dimensions in_image channels z_slices timepoints
      (kwarg_value (Some ADD) c_reduction)
      (kwarg_value None z_reduction)
      (kwarg_value None t_reduction) in
  let absent (k : kwarg (option Reduction)) := k = Omitted \/ k = Given None in
  let c_passes := (length cs <= 1)%nat \/ c_reduction <> Given None in
  let z_passes := (length zs <= 1)%nat \/ ~ absent z_reduction in
  let t_passes := (length ts <= 1)%nat \/ ~ absent t_reduction in
  ((1 < length cs)%nat -> c_reduction = Given None ->
   run = Raise (ReductionRequired "channels")) /\
  (c_passes -> (1 < length zs)%nat -> absent z_reduction ->
   run = Raise (ReductionRequired "z_slices")) /\
  (c_passes -> z_passes -> (1 < length ts)%nat -> absent t_reduction ->
   run = Raise (ReductionRequired "timepoints")) /\
  (c_passes -> z_passes -> t_passes -> run = Ok (cs, zs, ts)) /\
  (c_reduction = Omitted -> c_passes).
Proof.
  intros Hcs Hzs Hts run absent c_passes z_passes t_passes.
  subst run. unfold resolve_dimensions. rewrite Hcs, Hzs, Hts. simpl.
  assert (c_passes ->
          check_reduction_validity cs (kwarg_value (Some ADD) c_reduction)
            "channels" = Ok ()) as Hc.
  { intros Hp. apply check_reduction_validity_passes.
    destruct Hp as [Hfew | Hgiven]; [left; exact Hfew |].
    right. destruct c_reduction as [| [r |]]; simpl;
      [discriminate | discriminate | congruence]. }
  assert (forall k, absent k -> kwarg_value None k = None) as Habsent.
  { intros k [-> | ->]; reflexivity. }
  assert (forall (vs : list Z) k name,
            (length vs <= 1)%nat \/ ~ absent k ->
            check_reduction_validity vs (kwarg_value None k) name = Ok ())
    as Hpass.
  { intros vs k name Hp. apply check_reduction_validity_passes.
    destruct Hp as [Hfew | Hgiven]; [left; exact Hfew |].
    right. intros Hnone. apply Hgiven.
    destruct k as [| [r |]]; simpl in Hnone;
      [left; reflexivity | discriminate | right; reflexivity]. }
  repeat split.
  - intros Hmany ->. simpl.
    rewrite (check_reduction_validity_fails _ _ Hmany). reflexivity.
  - intros Hp Hmany Hz. rewrite (Hc Hp). simpl.
    rewrite (Habsent _ Hz), (check_reduction_validity_fails _ _ Hmany).
    reflexivity.
  - intros Hp Hzp Hmany Ht. rewrite (Hc Hp). simpl.
    rewrite (Hpass _ _ _ Hzp). simpl.
    rewrite (Habsent _ Ht), (check_reduction_validity_fails _ _ Hmany).
    reflexivity.
  - intros Hp Hzp Htp. rewrite (Hc Hp). simpl.
    rewrite (Hpass _ _ _ Hzp). simpl.
    rewrite (Hpass _ _ _ Htp). reflexivity.
  - intros ->. right. discriminate.
Qed.
End dimension_properties.

(** *** The dimension resolver on the small server *)

(** C4 (as stated, refuted). Three channels are selected and the caller
    supplies no channel reduction: the resolution succeeds and the request
    is served. *)
Lemma three_channels_without_reduction_resolve :
  @resolve_dimensions _ Demo.server Demo.slide
    (VList [VInt 0; VInt 1; VInt 2]) VNone VNone
    (kwarg_value (Some ADD) Omitted) (kwarg_value None Omitted)
    (kwarg_value None Omitted)
  = Ok ([0; 1; 2], [0], [0]) /\
  is_ok (Demo.show Demo.normalized_payload (VList [VInt 0; VInt 1; VInt 2])
           VNone AnnNone None Omitted) = true.
Proof. split; vm_compute; reflexivity. Qed.

(** Two focal planes and no z reduction: the z-slice axis is refused. *)
Lemma reduction_required_per_axis_witness :
  @resolve_dimensions _ Demo.server Demo.slide
    (VList [VInt 0; VInt 1; VInt 2]) (VList [VInt 0; VInt 1]) VNone
    (kwarg_value (Some ADD) Omitted) (kwarg_value None Omitted)
    (kwarg_value None (Given (Some MAX)))
  = Raise (ReductionRequired "z_slices").
Proof.
  refine (proj1 (proj2
    (@reduction_required_per_axis _ Demo.server Demo.slide
       (VList [VInt 0; VInt 1; VInt 2]) (VList [VInt 0; VInt 1]) VNone
       Omitted Omitted (Given (Some MAX)) [0; 1; 2] [0; 1] [0]
       _ _ _)) _ _ _).
  - vm_compute. reflexivity.
  - vm_compute. reflexivity.
  - vm_compute. reflexivity.
  - right. discriminate.
  - simpl. lia.
  - left. reflexivity.
Defined.

(** ** Properties of the pruning step *)

Lemma take_at_lookup {A : Type} (l : list A) (idx : list nat) (j : nat) :
  Forall (fun i => (i < length l)%nat) idx ->
  take_at l idx !! j = idx !! j ≫= fun i => l !! i.
Proof.
  intros Hidx. revert j. unfold take_at.
  induction Hidx as [|i idx Hi _ IH]; intros j; simpl.
  - reflexivity.
  - destruct (lookup_lt_is_Some_2 l i Hi) as [x Hx]. rewrite Hx.
    destruct j as [|j]; simpl.
    + rewrite Hx. reflexivity.
    + apply IH.
Qed.

Lemma take_at_length {A : Type} (l : list A) (idx : list nat) :
  Forall (fun i => (i < length l)%nat) idx ->
  length (take_at l idx) = length idx.
Proof.
  intros Hidx. unfold take_at.
  induction Hidx as [|i idx Hi _ IH]; simpl.
  - reflexivity.
  - destruct (lookup_lt_is_Some_2 l i Hi) as [x Hx]. rewrite Hx.
    simpl. f_equal. exact IH.
Qed.

Lemma seq_increasing (start len : nat) : StronglySorted lt (seq start len).
Proof.
  revert start. induction len as [|len IH]; intros start; simpl.
  - constructor.
  - constructor; [apply IH |].
    apply Forall_forall. intros i Hi. apply elem_of_seq in Hi. lia.
Qed.

Lemma filter_increasing
  (P : nat -> Prop) `{forall i, Decision (P i)} (l : list nat) :
  StronglySorted lt l -> StronglySorted lt (filter P l).
Proof.
  induction 1 as [|i l Hl IH Hi]; [constructor |].
  rewrite filter_cons. destruct (decide (P i)); [| exact IH].
  constructor; [exact IH |].
  apply Forall_forall. intros k Hk.
  apply list_elem_of_filter in Hk as [_ Hk].
  rewrite Forall_forall in Hi. apply Hi. exact Hk.
Qed.

Section pruning_properties.
Context `{Server}.

Lemma kept_channels_in_range
  (channels : list Z) (mins maxs cmaps gams : list value) :
  Forall (fun i => (i < length channels)%nat)
    (kept_channels channels mins maxs cmaps gams).
Proof.
  apply Forall_forall. intros i Hi. unfold kept_channels in Hi.
  apply list_elem_of_filter in Hi as [_ Hi].
  apply elem_of_seq in Hi. lia.
Qed.

(** C5. When the five arrays enter the pruning step with the length of the
    channel array, they leave it with one common length, and position by
    position they still belong together: the entries found at a position
    after pruning are the five entries that stood at one and the same
    position before, the positions that stay are the ones that are not a
    no-op, and they stay in their order. *)
Theorem pruning_keeps_arrays_aligned
  (channels : list Z) (mins maxs cmaps gams : list value)
  (channels' : list Z) (mins' maxs' cmaps' gams' : list value) :
  length mins = length channels ->
  length maxs = length channels ->
  length cmaps = length channels ->
  length gams = length channels ->
  remove_useless_channels channels mins maxs cmaps gams
  = (channels', mins', maxs', cmaps', gams') ->
  let kept := kept_channels channels mins maxs cmaps gams in
  (length mins' = length channels' /\ length maxs' = length channels' /\
   length cmaps' = length channels' /\ length gams' = length channels') /\
  length channels' = length kept /\
  StronglySorted lt kept /\
  (forall i : nat,
     i ∈ kept <->
     (i < length channels)%nat /\
     channel_stays channels mins maxs cmaps gams i = true) /\
  (forall (j : nat) (c : Z),
     channels' !! j = Some c ->
     exists i : nat,
       kept !! j = Some i /\
       channels !! i = Some c /\
       mins' !! j = mins !! i /\ is_Some (mins !! i) /\
       maxs' !! j = maxs !! i /\ is_Some (maxs !! i) /\
       cmaps' !! j = cmaps !! i /\ is_Some (cmaps !! i) /\
       gams' !! j = gams !! i /\ is_Some (gams !! i)).
Proof.
  intros Lmins Lmaxs Lcmaps Lgams Hrun kept.
  pose proof (kept_channels_in_range channels mins maxs cmaps gams)
    as Hrange.
  fold kept in Hrange.
  unfold remove_useless_channels in Hrun. fold kept in Hrun.
  injection Hrun as <- <- <- <- <-.
  assert (Forall (fun i => (i < length mins)%nat) kept) as Rmins
    by (rewrite Lmins; exact Hrange).
  assert (Forall (fun i => (i < length maxs)%nat) kept) as Rmaxs
    by (rewrite Lmaxs; exact Hrange).
  assert (Forall (fun i => (i < length cmaps)%nat) kept) as Rcmaps
    by (rewrite Lcmaps; exact Hrange).
  assert (Forall (fun i => (i < length gams)%nat) kept) as Rgams
    by (rewrite Lgams; exact Hrange).
  rewrite !take_at_length by assumption.
  split; [repeat split; reflexivity |].
  split; [reflexivity |].
  split; [apply filter_increasing, seq_increasing |].
  split.
  - intros i. unfold kept, kept_channels.
    rewrite list_elem_of_filter, elem_of_seq. split.
    + intros [Hstay Hi]. split; [lia | exact Hstay].
    + intros [Hi Hstay]. split; [exact Hstay | lia].
  - intros j c Hj.
    rewrite (take_at_lookup channels kept j Hrange) in Hj.
    destruct (kept !! j) as [i|] eqn:Hkj; simpl in Hj; [| discriminate].
    assert (i < length channels)%nat as Hi.
    { rewrite Forall_forall in Hrange. apply Hrange.
      apply list_elem_of_lookup. exists j. exact Hkj. }
    exists i. rewrite !take_at_lookup by assumption. rewrite Hkj. simpl.
    repeat split; try exact Hj; try reflexivity;
      apply lookup_lt_is_Some_2; lia.
Qed.
End pruning_properties.

(** *** The pruning step on the small server *)

(** Three channels, the second under the black colormap: the second
    position leaves the five arrays together. *)
Lemma pruning_keeps_arrays_aligned_witness :
  let kept :=
    @kept_channels _ Demo.server [0; 1; 2]
      [VInt 0; VInt 5; VInt 9] [VInt 100; VInt 105; VInt 109]
      [VStr "RED"; VStr "BLACK"; VStr "BLUE"]
      [VInt 1; VInt 2; VInt 3] in
  kept = [0; 2]%nat /\
  forall (j : nat) (c : Z),
    [0; 2] !! j = Some c ->
    exists i : nat,
      kept !! j = Some i /\
      [0; 1; 2] !! i = Some c /\
      [VInt 0; VInt 9] !! j = [VInt 0; VInt 5; VInt 9] !! i /\
      is_Some ([VInt 0; VInt 5; VInt 9] !! i) /\
      [VInt 100; VInt 109] !! j = [VInt 100; VInt 105; VInt 109] !! i /\
      is_Some ([VInt 100; VInt 105; VInt 109] !! i) /\
      [VStr "RED"; VStr "BLUE"] !! j
      = [VStr "RED"; VStr "BLACK"; VStr "BLUE"] !! i /\
      is_Some ([VStr "RED"; VStr "BLACK"; VStr "BLUE"] !! i) /\
      [VInt 1; VInt 3] !! j = [VInt 1; VInt 2; VInt 3] !! i /\
      is_Some ([VInt 1; VInt 2; VInt 3] !! i).
Proof.
  split; [vm_compute; reflexivity |].
  apply (@pruning_keeps_arrays_aligned _ Demo.server
           [0; 1; 2] [VInt 0; VInt 5; VInt 9]
           [VInt 100; VInt 105; VInt 109]
           [VStr "RED"; VStr "BLACK"; VStr "BLUE"]
           [VInt 1; VInt 2; VInt 3]
           [0; 2] [VInt 0; VInt 9] [VInt 100; VInt 109]
           [VStr "RED"; VStr "BLUE"] [VInt 1; VInt 3]).
  - reflexivity.
  - reflexivity.
  - reflexivity.
  - reflexivity.
  - vm_compute. reflexivity.
Defined.

(** ** Properties of the annotation steps *)

Lemma lookup_Some_nonempty (d : pydict) (k : pykey) (v : value) :
  d !! k = Some v -> d <> ∅.
Proof. intros Hk ->. rewrite lookup_empty in Hk. discriminate. Qed.

Section annotation_properties.
Context `{Server}.

Lemma style_truthy_of_mode (annotation_style : option pydict) (v : value) :
  style_mode annotation_style = Some v ->
  style_truthy annotation_style = true
  /\ style_getitem annotation_style (KStr "mode") = Ok v.
Proof.
  destruct annotation_style as [d|]; simpl; [| discriminate].
  intros Hmode. split.
  - apply bool_decide_eq_true_2. exact (lookup_Some_nonempty _ _ _ Hmode).
  - apply getitem_Some. exact Hmode.
Qed.

End annotation_properties.

(** *** The annotation parser settings on the small server *)


(** ** Properties of the response selection *)

Ltac invert_binds H :=
  repeat match type of H with
  | _ ≫= _ = Ok _ =>
      let a := fresh "a" in
      let Ha := fresh "Ha" in
      apply bind_Ok in H as (a & Ha & H)
  | match ?x with _ => _ end = Ok _ => destruct x
  end.

Section response_properties.
Context `{Server}.

Lemma mask_requested_true
  (annotations : annotations_arg) (annotation_style : option pydict)
  (mask : bool) :
  mask_requested annotations annotation_style = Ok mask ->
  mask = true <->
  annotations_truthy annotations = true
  /\ style_mode annotation_style = Some (VStyleMode MASK).
Proof.
  unfold mask_requested. intros Hrun. split.
  - intros ->.
    destruct (annotations_truthy annotations); simpl in Hrun;
      [| discriminate].
    destruct annotation_style as [d|]; simpl in Hrun; [| discriminate].
    destruct (bool_decide (d ≠ ∅)); simpl in Hrun; [| discriminate].
    unfold getitem in Hrun.
    destruct (d !! KStr "mode") as [v|] eqn:Hmode; simpl in Hrun;
      [| discriminate].
    destruct v as [| | | | | [|] | |]; try discriminate.
    split; [reflexivity | exact Hmode].
  - intros [Htruthy Hmode].
    destruct (style_truthy_of_mode _ _ Hmode) as [Hstyle Hget].
    rewrite Htruthy, Hstyle, Hget in Hrun. simpl in Hrun.
    injection Hrun as <-. reflexivity.
Qed.

Lemma resolve_annotations_kept
  (in_image : Image) (annotations served : annotations_arg)
  (annotation_style : option pydict) (headers : Headers) :
  resolve_annotations in_image annotations annotation_style headers
  = Ok served ->
  (annotations_truthy served = true -> annotations_truthy annotations = true)
  /\ (is_parsed annotations = true -> served = annotations).
Proof.
  unfold resolve_annotations. intros Hrun.
  destruct (annotations_truthy annotations) eqn:Htruthy; simpl in Hrun.
  - split; [reflexivity |].
    intros Hparsed. rewrite Hparsed, andb_false_r in Hrun.
    injection Hrun as <-. reflexivity.
  - injection Hrun as <-. split; [congruence | reflexivity].
Qed.

Lemma resolve_affine_truthy
  (annotations : annotations_arg) (region : region_arg)
  (out_width out_height : Z) (affine : option Affine) :
  resolve_affine annotations region out_width out_height = Ok affine ->
  annotations_truthy annotations = true ->
  exists p a, annotations = AnnParsed p /\ affine = Some a.
Proof.
  unfold resolve_affine. intros Hrun Htruthy. rewrite Htruthy in Hrun.
  invert_binds Hrun. injection Hrun as <-.
  destruct annotations as [| p | d | l]; try discriminate.
  eauto.
Qed.

(** X18. Whenever [_show_window] produces a response: it is the mask
    response exactly when the style mode is MASK and the annotation set the
    response is built from is not empty, and it is the windowed image in
    every other case; the mask response holds parsed annotations and their
    affine transform; a non-empty annotation set in the response comes from
    a non-empty payload, and a payload that was already parsed is used as it
    is. *)
Theorem mask_response_selection
  (path : Path) (region : region_arg)
  (height width length zoom level : value)
  (channels z_slices timepoints : value)
  (min_intensities max_intensities filters gammas threshold : value)
  (bits colorspace : value)
  (annotations : annotations_arg) (annotation_style : option pydict)
  (extension : value) (headers : Headers) (config : Settings)
  (colormaps : kwarg value)
  (c_reduction z_reduction t_reduction : kwarg (option Reduction))
  (resp : HttpResponse) :
  _show_window path region height width length zoom level
    channels z_slices timepoints
    min_intensities max_intensities filters gammas threshold
    bits colorspace annotations annotation_style
    extension headers config colormaps c_reduction z_reduction t_reduction
  = Ok resp ->
  let served := response_annotations (window resp) in
  (response_is_mask (window resp) = true <->
   annotations_truthy served = true
   /\ style_mode annotation_style = Some (VStyleMode MASK)) /\
  (response_is_mask (window resp) = true ->
   exists p a,
     served = AnnParsed p /\ response_affine (window resp) = Some a) /\
  (annotations_truthy served = true ->
   annotations_truthy annotations = true) /\
  (is_parsed annotations = true -> served = annotations).
Proof.
  intros Hrun. unfold _show_window in Hrun.
  invert_binds Hrun.
  injection Hrun as <-. simpl.
  match goal with
  | Hm : mask_requested ?anns _ = Ok ?m,
    Hr : resolve_annotations _ _ _ _ = Ok ?anns,
    Ha : resolve_affine ?anns _ _ _ = Ok ?aff |- _ =>
      pose proof (mask_requested_true _ _ _ Hm) as Hmask;
      pose proof (resolve_annotations_kept _ _ _ _ _ Hr) as [Hfrom Hsame];
      pose proof (resolve_affine_truthy _ _ _ _ _ Ha) as Haffine;
      destruct m; simpl
  end.
  - repeat split.
    + apply Hmask. reflexivity.
    + apply Hmask. reflexivity.
    + intros _. apply Haffine. apply Hmask. reflexivity.
    + exact Hfrom.
    + exact Hsame.
  - repeat split.
    + discriminate.
    + discriminate.
    + intros Hcond. apply Hmask in Hcond. discriminate.
    + discriminate.
    + exact Hfrom.
    + exact Hsame.
Qed.
End response_properties.

(** *** The response selection on the small server *)

(** A point annotation under the MASK style is served as a mask response. *)
Lemma mask_response_selection_witness :
  Demo.show Demo.normalized_payload VNone VNone
    (AnnList [Demo.point_annotation]) (Some Demo.mask_style) Omitted
  = Ok Demo.mask_response /\
  (response_is_mask (window Demo.mask_response) = true <->
   annotations_truthy (response_annotations (window Demo.mask_response))
   = true
   /\ style_mode (Some Demo.mask_style) = Some (VStyleMode MASK)).
Proof.
  split; [vm_compute; reflexivity |].
  refine (proj1
    (@mask_response_selection _ Demo.server
       (from_filepath "123/my-file.ext")
       (RawRegion Demo.normalized_payload) VNone VNone VNone VNone VNone
       VNone VNone VNone VNone VNone VNone VNone VNone VNone VNone
       (AnnList [Demo.point_annotation]) (Some Demo.mask_style)
       (VStr ".png") Demo.plain_headers Demo.settings
       Omitted Omitted Omitted Omitted Demo.mask_response _)).
  vm_compute. reflexivity.
Defined.

(** The same annotation under the DRAWING style is served as a windowed
    image that carries the parsed annotation. *)
Lemma drawing_style_served_as_window :
  match Demo.show Demo.normalized_payload VNone VNone
          (AnnList [Demo.point_annotation]) (Some Demo.drawing_style)
          Omitted with
  | Ok resp =>
      response_is_mask (window resp) = false /\
      response_annotations (window resp)
      = @AnnParsed Demo.domain [(["fill_color"], VInt 8)]
  | Raise _ => False
  end.
Proof. vm_compute. split; reflexivity. Qed.

(** ** Further properties of [pims/api/utils/parameter.py] *)

Section path_parameters.
Context `{FileSystem}.

(** X1. [imagepath_parameter] is [filepath_parameter] followed by the
    single-image check: it fails as [filepath_parameter] fails, and where
    [filepath_parameter] returns a path it returns the same path or refuses
    it for want of a single-image representation; [filepath_parameter]
    itself accepts every file that exists, single image or not. *)
Theorem imagepath_parameter_extends_filepath_parameter (fp : string) :
  (filepath_parameter fp = Ok (from_filepath fp)
   <-> exists_ (from_filepath fp) = true) /\
  match filepath_parameter fp with
  | Raise p => imagepath_parameter fp = Raise p
  | Ok path =>
      imagepath_parameter fp
      = if is_single path then Ok path
        else Raise (NoAppropriateRepresentationProblem (Some path))
  end.
Proof.
  unfold filepath_parameter, imagepath_parameter.
  destruct (exists_ (from_filepath fp)); simpl.
  - split; [split; reflexivity |].
    destruct (is_single (from_filepath fp)); reflexivity.
  - split; [split; discriminate | reflexivity].
Qed.
End path_parameters.

Section sanitize_properties.
Variable lib : pystr -> pystr -> result pystr.

Lemma clean_chars_unchanged (replacement : pystr) (sanitized : pystr) :
  Forall (fun c => c ∉ bad_chars) sanitized ->
  concat (map (fun c => if bool_decide (c ∈ bad_chars)
                        then replacement else [c]) sanitized)
  = sanitized.
Proof.
  induction 1 as [|c rest Hc _ IH]; simpl; [reflexivity |].
  rewrite (bool_decide_eq_false_2 _ Hc). simpl. f_equal. exact IH.
Qed.

Lemma clean_result_inv (replacement : pystr) (sanitized : pystr) :
  Forall (fun c => c ∉ bad_chars)
    (concat (map (fun c => if bool_decide (c ∈ bad_chars)
                           then replacement else [c]) sanitized)) ->
  Forall (fun c => c ∉ bad_chars) sanitized
  \/ Forall (fun c => c ∉ bad_chars) replacement.
Proof.
  induction sanitized as [|c rest IH]; simpl; intros Hclean.
  - left. constructor.
  - apply Forall_app in Hclean as [Hpiece Hrest].
    destruct (bool_decide (c ∈ bad_chars)) eqn:Hc.
    + right. exact Hpiece.
    + destruct (IH Hrest) as [Hs | Hr]; [left | right; exact Hr].
      constructor; [| exact Hs].
      apply (bool_decide_eq_false_1 (c ∈ bad_chars)). exact Hc.
Qed.

(** X2. A name that the library sanitizer returns without any bad character
    is returned as it is, whatever the replacement. *)
Theorem sanitize_filename_keeps_clean_names
  (filename replacement sanitized : pystr) :
  lib filename replacement = Ok sanitized ->
  Forall (fun c => c ∉ bad_chars) sanitized ->
  sanitize_filename lib filename replacement = Ok sanitized.
Proof.
  intros Hlib Hclean. unfold sanitize_filename. rewrite Hlib. simpl.
  rewrite (clean_chars_unchanged _ _ Hclean). reflexivity.
Qed.

(** X3. For any replacement text: the returned name is free of bad
    characters exactly when the replacement is free of them or the library
    result had none to replace.  A replacement that is itself a bad
    character puts bad characters into the result. *)
Theorem sanitize_filename_clean_iff
  (filename replacement sanitized : pystr) :
  lib filename replacement = Ok sanitized ->
  exists name,
    sanitize_filename lib filename replacement = Ok name /\
    (Forall (fun c => c ∉ bad_chars) name <->
     Forall (fun c => c ∉ bad_chars) sanitized
     \/ Forall (fun c => c ∉ bad_chars) replacement).
Proof.
  intros Hlib. unfold sanitize_filename. rewrite Hlib. simpl.
  eexists. split; [reflexivity |]. split.
  - apply clean_result_inv.
  - intros [Hs | Hr].
    + rewrite (clean_chars_unchanged _ _ Hs). exact Hs.
    + apply replaced_chars_clean. exact Hr.
Qed.

(** X4. With a replacement of one character the name keeps its length and
    every character keeps its position: bad characters become the
    replacement, the others stay. *)
Theorem sanitize_filename_one_char_replacement
  (filename sanitized : pystr) (r : N) :
  lib filename [r] = Ok sanitized ->
  sanitize_filename lib filename [r]
  = Ok ((fun c => if bool_decide (c ∈ bad_chars) then r else c)
          <$> sanitized)
  /\ forall name, sanitize_filename lib filename [r] = Ok name ->
       length name = length sanitized.
Proof.
  intros Hlib. unfold sanitize_filename. rewrite Hlib. simpl.
  assert (concat (map (fun c => if bool_decide (c ∈ bad_chars)
                                then [r] else [c]) sanitized)
          = (fun c => if bool_decide (c ∈ bad_chars) then r else c)
              <$> sanitized) as Hmap.
  { clear Hlib. induction sanitized as [|c rest IH]; simpl; [reflexivity |].
    rewrite IH. destruct (bool_decide (c ∈ bad_chars)); reflexivity. }
  rewrite Hmap. split; [reflexivity |].
  intros name Hname. injection Hname as <-. apply length_fmap.
Qed.

(** X5. With the empty replacement the bad characters are deleted: the
    result is the library result without them, in the same order. *)
Theorem sanitize_filename_empty_replacement
  (filename sanitized : pystr) :
  lib filename [] = Ok sanitized ->
  sanitize_filename lib filename []
  = Ok (filter (fun c => c ∉ bad_chars) sanitized).
Proof.
  intros Hlib. unfold sanitize_filename. rewrite Hlib. simpl. f_equal.
  clear Hlib. induction sanitized as [|c rest IH]; simpl; [reflexivity |].
  rewrite filter_cons, IH.
  destruct (decide (c ∉ bad_chars)) as [Hc | Hc].
  - rewrite (bool_decide_eq_false_2 _ Hc). reflexivity.
  - rewrite bool_decide_eq_true_2; [reflexivity |].
    destruct (decide (c ∈ bad_chars)) as [Hin | Hout];
      [exact Hin | contradiction].
Qed.
End sanitize_properties.

(** *** Sanitizing with a library that returns the name as it is *)

Lemma sanitize_filename_keeps_clean_names_witness :
  sanitize_filename (fun name _ => Ok name) [97; 45; 98]%N default_replacement
  = Ok [97; 45; 98]%N.
Proof.
  apply (sanitize_filename_keeps_clean_names (fun name _ => Ok name)
           [97; 45; 98]%N default_replacement [97; 45; 98]%N).
  - reflexivity.
  - apply (bool_decide_unpack _). vm_compute. exact I.
Defined.

(** A space as replacement: the space of the name is replaced by a space. *)
Lemma sanitize_filename_clean_iff_witness :
  exists name,
    sanitize_filename (fun name _ => Ok name) [97; 32; 98]%N [32%N]
    = Ok name /\
    (Forall (fun c => c ∉ bad_chars) name <->
     Forall (fun c => c ∉ bad_chars) [97; 32; 98]%N
     \/ Forall (fun c => c ∉ bad_chars) [32%N]).
Proof.
  apply (sanitize_filename_clean_iff (fun name _ => Ok name)
           [97; 32; 98]%N [32%N] [97; 32; 98]%N).
  reflexivity.
Defined.

Lemma sanitize_filename_one_char_replacement_witness :
  sanitize_filename (fun name _ => Ok name) [97; 32; 98; 40; 99; 41]%N [45%N]
  = Ok ((fun c => if bool_decide (c ∈ bad_chars) then 45%N else c)
          <$> [97; 32; 98; 40; 99; 41]%N).
Proof.
  apply (sanitize_filename_one_char_replacement (fun name _ => Ok name)
           [97; 32; 98; 40; 99; 41]%N [97; 32; 98; 40; 99; 41]%N 45%N).
  reflexivity.
Defined.

Lemma sanitize_filename_empty_replacement_witness :
  sanitize_filename (fun name _ => Ok name) [97; 32; 98]%N []
  = Ok (filter (fun c => c ∉ bad_chars) [97; 32; 98]%N).
Proof.
  apply (sanitize_filename_empty_replacement (fun name _ => Ok name)
           [97; 32; 98]%N [97; 32; 98]%N).
  reflexivity.
Defined.

(** ** Further properties of the region resolver *)

Lemma getitem_None (d : pydict) (k : pykey) :
  d !! k = None -> getitem d k = Raise (KeyError k).
Proof. intros Hk. unfold getitem. rewrite Hk. reflexivity. Qed.

Lemma getitem_insert_ne (d : pydict) (k k' : pykey) (v : value) :
  k <> k' -> getitem (<[k := v]> d) k' = getitem d k'.
Proof. intros Hne. unfold getitem. rewrite lookup_insert_ne; done. Qed.

Lemma getitem_insert_eq (d : pydict) (k : pykey) (v : value) :
  getitem (<[k := v]> d) k = Ok v.
Proof. unfold getitem. rewrite lookup_insert_eq. reflexivity. Qed.

Lemma contains_insert_ne (d : pydict) (k k' : pykey) (v : value) :
  k <> k' -> contains (<[k := v]> d) k' = contains d k'.
Proof. intros Hne. unfold contains. rewrite lookup_insert_ne; done. Qed.

Section region_edges.
Context `{Server}.

(** X6. A raw payload is read by subscripting: without [tier_index_type],
    or without [reference_tier_index], the resolver raises the key error of
    that key whatever descriptor the payload holds; a normalized payload
    that lacks [left], [width] or [height] raises the key error of the first
    one missing, in that order, and the region parser is not reached. *)
Theorem resolve_region_missing_key
  (in_image : Image) (region : pydict) :
  (region !! KStr "tier_index_type" = None ->
   resolve_region in_image (RawRegion region)
   = Raise (KeyError (KStr "tier_index_type"))) /\
  (is_Some (region !! KStr "tier_index_type") ->
   region !! KStr "reference_tier_index" = None ->
   resolve_region in_image (RawRegion region)
   = Raise (KeyError (KStr "reference_tier_index"))) /\
  (is_Some (region !! KStr "tier_index_type") ->
   is_Some (region !! KStr "reference_tier_index") ->
   is_Some (region !! KStr "top") ->
   (region !! KStr "left" = None ->
    resolve_region in_image (RawRegion region)
    = Raise (KeyError (KStr "left"))) /\
   (is_Some (region !! KStr "left") ->
    region !! KStr "width" = None ->
    resolve_region in_image (RawRegion region)
    = Raise (KeyError (KStr "width"))) /\
   (is_Some (region !! KStr "left") ->
    is_Some (region !! KStr "width") ->
    region !! KStr "height" = None ->
    resolve_region in_image (RawRegion region)
    = Raise (KeyError (KStr "height")))).
Proof.
  unfold resolve_region. split; [| split].
  - intros Htype. rewrite (getitem_None _ _ Htype). reflexivity.
  - intros [tt Htype] Href.
    rewrite (getitem_Some _ _ _ Htype), (getitem_None _ _ Href).
    reflexivity.
  - intros [tt Htype] [rt Href] [top Htop].
    rewrite (getitem_Some _ _ _ Htype), (getitem_Some _ _ _ Href). simpl.
    rewrite (contains_Some _ _ _ Htop), (getitem_Some _ _ _ Htop). simpl.
    split; [| split].
    + intros Hleft. rewrite (getitem_None _ _ Hleft). reflexivity.
    + intros [left Hleft] Hwidth.
      rewrite (getitem_Some _ _ _ Hleft), (getitem_None _ _ Hwidth).
      reflexivity.
    + intros [left Hleft] [width Hwidth] Hheight.
      rewrite (getitem_Some _ _ _ Hleft), (getitem_Some _ _ _ Hwidth),
        (getitem_None _ _ Hheight).
      reflexivity.
Qed.

(** X7. A payload whose reference tier is [None] and that holds [top] or
    [ti] is resolved as the same payload with the reference tier written
    out: 0 when the tier index type is LEVEL, the maximum zoom of the
    pyramid otherwise. *)
Theorem resolve_region_fills_reference_tier
  (in_image : Image) (region : pydict) (tier_index_type : value) :
  region !! KStr "tier_index_type" = Some tier_index_type ->
  region !! KStr "reference_tier_index" = Some VNone ->
  is_Some (region !! KStr "top") \/ is_Some (region !! KStr "ti") ->
  resolve_region in_image (RawRegion region)
  = resolve_region in_image
      (RawRegion
         (<[KStr "reference_tier_index" :=
              match tier_index_type with
              | VTierIndexType LEVEL => VInt 0
              | _ => VInt (max_zoom (pyramid in_image))
              end]> region)).
Proof.
  intros Htype Href Hdescriptor. unfold resolve_region.
  rewrite (getitem_insert_ne region (KStr "reference_tier_index")
             (KStr "tier_index_type")) by discriminate.
  rewrite (getitem_Some _ _ _ Htype), (getitem_Some _ _ _ Href).
  cbn [mbind result_bind].
  rewrite getitem_insert_eq.
  cbn [mbind result_bind].
  rewrite !getitem_insert_ne by discriminate.
  rewrite !contains_insert_ne by discriminate.
  assert (default_reference_tier in_image tier_index_type
            match tier_index_type with
            | VTierIndexType LEVEL => VInt 0
            | _ => VInt (max_zoom (pyramid in_image))
            end
          = default_reference_tier in_image tier_index_type VNone) as ->.
  { destruct tier_index_type as [| | | | [|] | | |]; reflexivity. }
  destruct (contains region (KStr "top")) eqn:Htop; [reflexivity |].
  destruct (contains region (KStr "ti")) eqn:Hti; [reflexivity |].
  exfalso. destruct Hdescriptor as [[v Hv] | [v Hv]].
  - rewrite (contains_Some _ _ _ Hv) in Htop. discriminate.
  - rewrite (contains_Some _ _ _ Hv) in Hti. discriminate.
Qed.

(** X8. Resolving is idempotent: what the resolver returns is returned
    unchanged when it is resolved again, so a request that already carries
    a [Region] is never parsed a second time. *)
Theorem resolve_region_idempotent
  (in_image : Image) (region resolved : region_arg) :
  resolve_region in_image region = Ok resolved ->
  resolve_region in_image resolved = Ok resolved.
Proof.
  intros Hrun. destruct resolved as [r | d]; [reflexivity |].
  destruct region as [r | d0]; [discriminate |].
  assert (d = d0) as ->; [| exact Hrun].
  unfold resolve_region in Hrun.
  invert_binds Hrun; try discriminate.
  injection Hrun as ->. reflexivity.
Qed.
End region_edges.

(** *** Edges of the region resolver on the small server *)

Lemma resolve_region_missing_key_witness :
  @resolve_region _ Demo.server Demo.slide
    (RawRegion Demo.incomplete_payload)
  = Raise (KeyError (KStr "left")).
Proof.
  refine (proj1 (proj2 (proj2
    (@resolve_region_missing_key _ Demo.server Demo.slide
       Demo.incomplete_payload)) _ _ _) _).
  - exists (VTierIndexType LEVEL). vm_compute. reflexivity.
  - exists (VInt 0). vm_compute. reflexivity.
  - exists (VInt 0). vm_compute. reflexivity.
  - vm_compute. reflexivity.
Defined.

Lemma resolve_region_fills_reference_tier_witness :
  @resolve_region _ Demo.server Demo.slide
    (RawRegion Demo.open_tier_payload)
  = @resolve_region _ Demo.server Demo.slide
      (RawRegion
         (<[KStr "reference_tier_index" := VInt 0]> Demo.open_tier_payload)).
Proof.
  apply (@resolve_region_fills_reference_tier _ Demo.server Demo.slide
           Demo.open_tier_payload (VTierIndexType LEVEL)).
  - vm_compute. reflexivity.
  - vm_compute. reflexivity.
  - left. exists (VInt 0). vm_compute. reflexivity.
Defined.

Lemma resolve_region_idempotent_witness :
  @resolve_region _ Demo.server Demo.slide
    (@IsRegion Demo.domain (0, 0, 100, 100))
  = Ok (@IsRegion Demo.domain (0, 0, 100, 100)).
Proof.
  apply (@resolve_region_idempotent _ Demo.server Demo.slide
           (RawRegion Demo.normalized_payload)).
  vm_compute. reflexivity.
Defined.

(** ** Further properties of the annotation steps *)

Section annotation_edges.
Context `{Server}.

(** X9. For a raw, non-empty payload under a non-empty style the mode is
    read by subscripting: a style without [mode] raises the key error of
    [mode], and a DRAWING style without [point_envelope_length] raises the
    key error of that key; in both cases the parser is not reached. *)
Theorem resolve_annotations_missing_style_key
  (in_image : Image) (annotations : annotations_arg) (style : pydict)
  (headers : Headers) :
  annotations_truthy annotations = true ->
  is_parsed annotations = false ->
  style <> ∅ ->
  (style !! KStr "mode" = None ->
   resolve_annotations in_image annotations (Some style) headers
   = Raise (KeyError (KStr "mode"))) /\
  (style !! KStr "mode" = Some (VStyleMode DRAWING) ->
   style !! KStr "point_envelope_length" = None ->
   resolve_annotations in_image annotations (Some style) headers
   = Raise (KeyError (KStr "point_envelope_length"))).
Proof.
  intros Htruthy Hraw Hstyle. unfold resolve_annotations.
  rewrite Htruthy, Hraw. simpl.
  rewrite (bool_decide_eq_true_2 _ Hstyle). simpl.
  unfold annotation_parse_settings. simpl. split.
  - intros Hmode. rewrite (getitem_None _ _ Hmode). reflexivity.
  - intros Hmode Hpel.
    rewrite (getitem_Some _ _ _ Hmode). simpl.
    rewrite (getitem_None _ _ Hpel). reflexivity.
Qed.

(** X10. Only the DRAWING mode is singled out: under any other mode value
    the parser gets the settings of the mask, stroke width and stroke color
    ignored, fill color white by default, no point-envelope length, and the
    style needs no [point_envelope_length]. *)
Theorem other_modes_parse_as_mask
  (in_image : Image) (annotations : annotations_arg) (style : pydict)
  (headers : Headers) (mode : value) :
  annotations_truthy annotations = true ->
  is_parsed annotations = false ->
  style !! KStr "mode" = Some mode ->
  mode <> VStyleMode DRAWING ->
  resolve_annotations in_image annotations (Some style) headers
  = (parsed ← parse_annotations (ensure_annotation_list annotations)
                ["stroke_width"; "stroke_color"]
                (<[KStr "fill_color" := VColor WHITE]> ∅)
                VNone
                (annot_origin headers) (image_height in_image);
     Ok (AnnParsed parsed)).
Proof.
  intros Htruthy Hraw Hmode Hother. unfold resolve_annotations.
  rewrite Htruthy, Hraw.
  destruct (style_truthy_of_mode (Some style) _ Hmode) as [-> Hget].
  unfold annotation_parse_settings. rewrite Hget. simpl.
  destruct mode as [| | | | | [|] | |]; try reflexivity.
  contradiction.
Qed.

(** X11. The annotation step is idempotent: the annotations it returns are
    returned unchanged by a second pass under the same style, so parsed
    annotations are never parsed again. *)
Theorem resolve_annotations_idempotent
  (in_image : Image) (annotations served : annotations_arg)
  (annotation_style : option pydict) (headers : Headers) :
  resolve_annotations in_image annotations annotation_style headers
  = Ok served ->
  resolve_annotations in_image served annotation_style headers = Ok served.
Proof.
  intros Hrun. pose proof Hrun as Hagain. unfold resolve_annotations in Hrun.
  destruct (annotations_truthy annotations && style_truthy annotation_style
            && negb (is_parsed annotations)).
  - invert_binds Hrun. injection Hrun as <-.
    unfold resolve_annotations. simpl. rewrite andb_false_r. reflexivity.
  - injection Hrun as <-. exact Hagain.
Qed.
End annotation_edges.

(** *** Edges of the annotation steps on the small server *)

Lemma resolve_annotations_missing_style_key_witness :
  @resolve_annotations _ Demo.server Demo.slide
    (AnnList [Demo.point_annotation])
    (Some (<[KStr "mode" := VStyleMode DRAWING]> ∅)) Demo.plain_headers
  = Raise (KeyError (KStr "point_envelope_length")).
Proof.
  refine (proj2
    (@resolve_annotations_missing_style_key _ Demo.server Demo.slide
       (AnnList [Demo.point_annotation])
       (<[KStr "mode" := VStyleMode DRAWING]> ∅) Demo.plain_headers
       _ _ _) _ _).
  - vm_compute. reflexivity.
  - reflexivity.
  - apply (bool_decide_unpack _). vm_compute. exact I.
  - vm_compute. reflexivity.
  - vm_compute. reflexivity.
Defined.

Lemma other_modes_parse_as_mask_witness :
  @resolve_annotations _ Demo.server Demo.slide
    (AnnList [Demo.point_annotation])
    (Some (<[KStr "mode" := VStr "CROP"]> ∅)) Demo.plain_headers
  = (parsed ← @parse_annotations _ Demo.server [Demo.point_annotation]
                ["stroke_width"; "stroke_color"]
                (<[KStr "fill_color" := VColor WHITE]> ∅)
                VNone (VStr "LEFT_TOP") 768;
     Ok (AnnParsed parsed)).
Proof.
  apply (@other_modes_parse_as_mask _ Demo.server Demo.slide
           (AnnList [Demo.point_annotation])
           (<[KStr "mode" := VStr "CROP"]> ∅) Demo.plain_headers
           (VStr "CROP")).
  - vm_compute. reflexivity.
  - reflexivity.
  - vm_compute. reflexivity.
  - discriminate.
Defined.

Lemma resolve_annotations_idempotent_witness :
  @resolve_annotations _ Demo.server Demo.slide
    (@AnnParsed Demo.domain [(["stroke_width"; "stroke_color"], VNone)])
    (Some Demo.mask_style) Demo.plain_headers
  = Ok (@AnnParsed Demo.domain [(["stroke_width"; "stroke_color"], VNone)]).
Proof.
  apply (@resolve_annotations_idempotent _ Demo.server Demo.slide
           (AnnList [Demo.point_annotation])).
  vm_compute. reflexivity.
Defined.

(** ** Properties of every response of [_show_window] *)

Section served_responses.
Context `{Server}.
Variables (path : Path) (region : region_arg).
Variables (height width length zoom level : value).
Variables (channels z_slices timepoints : value).
Variables (min_intensities max_intensities filters gammas threshold : value).
Variables (bits colorspace : value).
Variables (annotations : annotations_arg) (annotation_style : option pydict).
Variables (extension : value) (headers : Headers) (config : Settings).
Variables (colormaps : kwarg value).
Variables (c_reduction z_reduction t_reduction : kwarg (option Reduction)).

Let run : result HttpResponse :=
  _show_window path region height width length zoom level
    channels z_slices timepoints
    min_intensities max_intensities filters gammas threshold
    bits colorspace annotations annotation_style
    extension headers config colormaps c_reduction z_reduction t_reduction.

(** The steps behind a response, in the order of the body. *)
Lemma show_window_steps (resp : HttpResponse) :
  run = Ok resp ->
  exists (in_image : Image) (resolved : region_arg) (out_format : OutFormat)
         (served : annotations_arg) (affine : option Affine) (mask : bool),
    get_cached_spatial path = Some in_image /\
    resolve_region in_image region = Ok resolved /\
    get_output_format extension (accept headers)
    = Ok (out_format, mimetype resp) /\
    check_zoom_validity (pyramid in_image) zoom = Ok () /\
    check_level_validity (pyramid in_image) level = Ok () /\
    get_window_output_dimensions in_image resolved
      height width length zoom level = Ok (req_size_header resp) /\
    safeguard_output_dimensions (safe_mode headers)
      (output_size_limit config)
      (req_size_header resp).1 (req_size_header resp).2
    = Ok (out_size_header resp) /\
    resolve_annotations in_image annotations annotation_style headers
    = Ok served /\
    resolve_affine served resolved
      (out_size_header resp).1 (out_size_header resp).2 = Ok affine /\
    mask_requested served annotation_style = Ok mask /\
    response_image (window resp) = in_image /\
    response_format (window resp) = out_format /\
    response_size (window resp) = out_size_header resp /\
    response_annotations (window resp) = served /\
    response_affine (window resp) = affine /\
    response_is_mask (window resp) = mask /\
    (mask = false -> response_region (window resp) = Some resolved).
Proof.
  unfold run, _show_window. intros Hrun.
  invert_binds Hrun. injection Hrun as <-.
  match goal with
  | Hi : check_representation_existence _ = Ok ?i |- _ =>
      exists i;
      assert (get_cached_spatial path = Some i) as Himage
        by (unfold check_representation_existence in Hi;
            destruct (get_cached_spatial path);
            [injection Hi as ->; reflexivity | discriminate])
  end.
  repeat match goal with u : () |- _ => destruct u end.
  match goal with
  | Hm : mask_requested _ _ = Ok ?m |- _ => destruct m
  end; simpl; do 5 eexists; repeat split; eauto; discriminate.
Qed.

(** X12. The size of the image in a response is the safeguarded size that
    the response reports, and that size is the safeguard applied to the
    requested size that the response reports beside it, which is the output
    size computed for the resolved region. *)
Theorem response_sizes_are_reported (resp : HttpResponse) :
  run = Ok resp ->
  response_size (window resp) = out_size_header resp /\
  safeguard_output_dimensions (safe_mode headers) (output_size_limit config)
    (req_size_header resp).1 (req_size_header resp).2
  = Ok (out_size_header resp) /\
  exists resolved,
    resolve_region (response_image (window resp)) region = Ok resolved /\
    get_window_output_dimensions (response_image (window resp)) resolved
      height width length zoom level = Ok (req_size_header resp).
Proof.
  intros Hrun.
  destruct (show_window_steps resp Hrun)
    as (i & resolved & fmt & served & affine & mask & Himage & Hregion
        & Hformat & Hzoom & Hlevel & Hreq & Hout & Hann & Haff & Hmask
        & Ri & Rf & Rs & Ra & Raff & Rm & Rr).
  subst i. repeat split; try assumption. exists resolved. split; assumption.
Qed.

(** X13. The mimetype of a response and the format its image is encoded in
    are the pair negotiated from the extension and the accept header, and
    both the zoom and the level of the request were accepted by the
    pyramid of the image. *)
Theorem response_format_is_negotiated (resp : HttpResponse) :
  run = Ok resp ->
  get_output_format extension (accept headers)
  = Ok (response_format (window resp), mimetype resp) /\
  check_zoom_validity (pyramid (response_image (window resp))) zoom = Ok () /\
  check_level_validity (pyramid (response_image (window resp))) level
  = Ok ().
Proof.
  intros Hrun.
  destruct (show_window_steps resp Hrun)
    as (i & resolved & fmt & served & affine & mask & Himage & Hregion
        & Hformat & Hzoom & Hlevel & Hreq & Hout & Hann & Haff & Hmask
        & Ri & Rf & Rs & Ra & Raff & Rm & Rr).
  subst i fmt. repeat split; assumption.
Qed.

(** X14. A response carries an affine transform exactly when its annotation
    set is not empty, and the transform is then the one computed from the
    region of the parsed annotations, the resolved region of the request
    and the safeguarded output size. *)
Theorem response_affine_follows_annotations (resp : HttpResponse) :
  run = Ok resp ->
  match response_affine (window resp) with
  | None => annotations_truthy (response_annotations (window resp)) = false
  | Some affine =>
      exists parsed resolved,
        response_annotations (window resp) = AnnParsed parsed /\
        parsed <> [] /\
        resolve_region (response_image (window resp)) region = Ok resolved /\
        annotation_crop_affine_matrix (annotations_region parsed) resolved
          (out_size_header resp).1 (out_size_header resp).2 = Ok affine
  end.
Proof.
  intros Hrun.
  destruct (show_window_steps resp Hrun)
    as (i & resolved & fmt & served & affine & mask & Himage & Hregion
        & Hformat & Hzoom & Hlevel & Hreq & Hout & Hann & Haff & Hmask
        & Ri & Rf & Rs & Ra & Raff & Rm & Rr).
  rewrite Raff, Ra, Ri. unfold resolve_affine in Haff.
  destruct (annotations_truthy served) eqn:Htruthy.
  - invert_binds Haff. injection Haff as <-.
    destruct served as [| parsed | d | l]; try discriminate.
    match goal with
    | Hr : region_of_annotations _ = Ok _ |- _ =>
        simpl in Hr; injection Hr as <-
    end.
    exists parsed, resolved. repeat split; try assumption.
    simpl in Htruthy.
    apply (bool_decide_eq_true_1 (parsed <> [])). exact Htruthy.
  - injection Haff as <-. reflexivity.
Qed.

(** X15. A raw, non-empty annotation payload without a style is never
    served: it is not parsed, and the affine step needs the region of
    parsed annotations. *)
Theorem raw_annotations_need_a_style :
  annotations_truthy annotations = true ->
  is_parsed annotations = false ->
  style_truthy annotation_style = false ->
  is_ok run = false.
Proof.
  intros Htruthy Hraw Hstyle.
  destruct run as [resp |] eqn:Hrun; [| reflexivity]. exfalso.
  destruct (show_window_steps resp Hrun)
    as (i & resolved & fmt & served & affine & mask & Himage & Hregion
        & Hformat & Hzoom & Hlevel & Hreq & Hout & Hann & Haff & Hmask
        & Ri & Rf & Rs & Ra & Raff & Rm & Rr).
  unfold resolve_annotations in Hann.
  rewrite Htruthy, Hstyle in Hann. simpl in Hann. injection Hann as <-.
  unfold resolve_affine in Haff. rewrite Htruthy in Haff.
  destruct annotations; simpl in *; discriminate.
Qed.

(** X16. The region a windowed image is cut from is the region the resolver
    returned for the request; a request that carries a [Region] is served
    from that very region. *)
Theorem window_region_is_the_resolved_region (resp : HttpResponse) :
  run = Ok resp ->
  response_is_mask (window resp) = false ->
  exists resolved,
    response_region (window resp) = Some resolved /\
    resolve_region (response_image (window resp)) region = Ok resolved /\
    (forall r, region = IsRegion r -> resolved = IsRegion r).
Proof.
  intros Hrun Hwindow.
  destruct (show_window_steps resp Hrun)
    as (i & resolved & fmt & served & affine & mask & Himage & Hregion
        & Hformat & Hzoom & Hlevel & Hreq & Hout & Hann & Haff & Hmask
        & Ri & Rf & Rs & Ra & Raff & Rm & Rr).
  rewrite Rm in Hwindow. subst i.
  exists resolved. split; [exact (Rr Hwindow) |]. split; [exact Hregion |].
  intros r ->. simpl in Hregion. injection Hregion as <-. reflexivity.
Qed.
End served_responses.

Section route_properties.
Context `{Server}.

(** X17. The route serves a response only for a file that exists and holds
    a single image, and the response is the one the body computes for that
    path under the extension that the extension dependency returned. *)
Theorem route_serves_existing_single_images
  (body : WindowRequest) (fp : string) (extension : value)
  (headers : Headers) (config : Settings) (resp : HttpResponse) :
  show_window_with_body body fp extension headers config = Ok resp ->
  exists_ (from_filepath fp) = true /\
  is_single (from_filepath fp) = true /\
  exists resolved_extension,
    extension_path_parameter extension = Ok resolved_extension /\
    _show_window (from_filepath fp) (body_region body)
      (body_height body) (body_width body) (body_length body)
      (body_zoom body) (body_level body)
      (body_channels body) (body_z_slices body) (body_timepoints body)
      (body_min_intensities body) (body_max_intensities body)
      (body_filters body) (body_gammas body) (body_threshold body)
      (body_bits body) (body_colorspace body)
      (body_annotations body) (body_annotation_style body)
      resolved_extension headers config
      (body_colormaps body) (body_c_reduction body)
      (body_z_reduction body) (body_t_reduction body)
    = Ok resp.
Proof.
  unfold show_window_with_body, imagepath_parameter. intros Hrun.
  destruct (exists_ (from_filepath fp)); simpl in Hrun; [| discriminate].
  destruct (is_single (from_filepath fp)); simpl in Hrun; [| discriminate].
  apply bind_Ok in Hrun as (ext & Hext & Hrun).
  split; [reflexivity |]. split; [reflexivity |].
  exists ext. split; assumption.
Qed.
End route_properties.

(** *** Responses of the small server *)

Lemma demo_mask_request :
  @_show_window _ Demo.server (from_filepath "123/my-file.ext")
    (RawRegion Demo.normalized_payload) VNone VNone VNone VNone VNone
    VNone VNone VNone VNone VNone VNone VNone VNone VNone VNone
    (AnnList [Demo.point_annotation]) (Some Demo.mask_style)
    (VStr ".png") Demo.plain_headers Demo.settings
    Omitted Omitted Omitted Omitted
  = Ok Demo.mask_response.
Proof. vm_compute. reflexivity. Qed.

Lemma demo_window_request :
  @_show_window _ Demo.server (from_filepath "123/my-file.ext")
    (RawRegion Demo.normalized_payload) VNone VNone VNone VNone VNone
    VNone VNone VNone VNone VNone VNone VNone VNone VNone VNone
    AnnNone None
    (VStr ".png") Demo.plain_headers Demo.settings
    Omitted Omitted Omitted Omitted
  = Ok Demo.window_response.
Proof. vm_compute. reflexivity. Qed.

Lemma demo_route_request :
  @show_window_with_body _ Demo.server Demo.plain_body "123/my-file.ext"
    (VStr ".png") Demo.plain_headers Demo.settings
  = Ok Demo.window_response.
Proof. vm_compute. reflexivity. Qed.

Lemma response_sizes_are_reported_witness :
  response_size (window Demo.mask_response)
  = out_size_header Demo.mask_response /\
  @safeguard_output_dimensions _ Demo.server
    (safe_mode Demo.plain_headers) (output_size_limit Demo.settings)
    (req_size_header Demo.mask_response).1
    (req_size_header Demo.mask_response).2
  = Ok (out_size_header Demo.mask_response) /\
  exists resolved,
    @resolve_region _ Demo.server
      (response_image (window Demo.mask_response))
      (RawRegion Demo.normalized_payload) = Ok resolved /\
    @get_window_output_dimensions _ Demo.server
      (response_image (window Demo.mask_response)) resolved
      VNone VNone VNone VNone VNone
    = Ok (req_size_header Demo.mask_response).
Proof.
  exact (@response_sizes_are_reported _ Demo.server _ _ _ _ _ _ _ _ _ _ _ _
           _ _ _ _ _ _ _ _ _ _ _ _ _ _ _ demo_mask_request).
Defined.

Lemma response_format_is_negotiated_witness :
  @get_output_format _ Demo.server (VStr ".png")
    (accept Demo.plain_headers)
  = Ok (response_format (window Demo.mask_response),
        mimetype Demo.mask_response) /\
  @check_zoom_validity _ Demo.server
    (@pyramid _ Demo.server (response_image (window Demo.mask_response)))
    VNone = Ok () /\
  @check_level_validity _ Demo.server
    (@pyramid _ Demo.server (response_image (window Demo.mask_response)))
    VNone = Ok ().
Proof.
  exact (@response_format_is_negotiated _ Demo.server _ _ _ _ _ _ _ _ _ _ _
           _ _ _ _ _ _ _ _ _ _ _ _ _ _ _ _ demo_mask_request).
Defined.

Lemma response_affine_follows_annotations_witness :
  exists parsed resolved,
    response_annotations (window Demo.mask_response) = AnnParsed parsed /\
    parsed <> [] /\
    @resolve_region _ Demo.server
      (response_image (window Demo.mask_response))
      (RawRegion Demo.normalized_payload) = Ok resolved /\
    @annotation_crop_affine_matrix _ Demo.server
      (@annotations_region _ Demo.server parsed) resolved
      (out_size_header Demo.mask_response).1
      (out_size_header Demo.mask_response).2
    = Ok ((0, 0, 256, 256), (100, 100)).
Proof.
  exact (@response_affine_follows_annotations _ Demo.server _ _ _ _ _ _ _ _
           _ _ _ _ _ _ _ _ _ _ _ _ _ _ _ _ _ _ _ demo_mask_request).
Defined.

Lemma raw_annotations_need_a_style_witness :
  is_ok (@_show_window _ Demo.server (from_filepath "123/my-file.ext")
           (RawRegion Demo.normalized_payload) VNone VNone VNone VNone VNone
           VNone VNone VNone VNone VNone VNone VNone VNone VNone VNone
           (AnnList [Demo.point_annotation]) None
           (VStr ".png") Demo.plain_headers Demo.settings
           Omitted Omitted Omitted Omitted) = false.
Proof.
  apply (@raw_annotations_need_a_style _ Demo.server).
  - vm_compute. reflexivity.
  - reflexivity.
  - reflexivity.
Defined.

Lemma window_region_is_the_resolved_region_witness :
  exists resolved,
    response_region (window Demo.window_response) = Some resolved /\
    @resolve_region _ Demo.server
      (response_image (window Demo.window_response))
      (RawRegion Demo.normalized_payload) = Ok resolved /\
    (forall r, RawRegion Demo.normalized_payload = IsRegion r ->
               resolved = IsRegion r).
Proof.
  refine (@window_region_is_the_resolved_region _ Demo.server _ _ _ _ _ _ _
            _ _ _ _ _ _ _ _ _ _ _ _ _ _ _ _ _ _ _ _ demo_window_request _).
  reflexivity.
Defined.

Lemma route_serves_existing_single_images_witness :
  @exists_ (@server_fs _ Demo.server) (from_filepath "123/my-file.ext")
  = true /\
  @is_single (@server_fs _ Demo.server) (from_filepath "123/my-file.ext")
  = true.
Proof.
  pose proof (@route_serves_existing_single_images _ Demo.server
                Demo.plain_body "123/my-file.ext" (VStr ".png")
                Demo.plain_headers Demo.settings Demo.window_response
                demo_route_request) as (Hexists & Hsingle & _).
  split; assumption.
Defined.

(** ** The selection of the region descriptor *)

Lemma getitem_delete_ne (d : pydict) (k k' : pykey) :
  k <> k' -> getitem (delete k d) k' = getitem d k'.
Proof. intros Hne. unfold getitem. rewrite lookup_delete_ne; done. Qed.

Lemma contains_delete_ne (d : pydict) (k k' : pykey) :
  k <> k' -> contains (delete k d) k' = contains d k'.
Proof. intros Hne. unfold contains. rewrite lookup_delete_ne; done. Qed.

Section descriptor_selection.
Context `{Server}.
Variables (path : Path).
Variables (height width length zoom level : value).
Variables (channels z_slices timepoints : value).
Variables (min_intensities max_intensities filters gammas threshold : value).
Variables (bits colorspace : value).
Variables (annotations : annotations_arg) (annotation_style : option pydict).
Variables (extension : value) (headers : Headers) (config : Settings).
Variables (colormaps : kwarg value).
Variables (c_reduction z_reduction t_reduction : kwarg (option Reduction)).

Lemma no_descriptor_no_region (in_image : Image) (region : pydict) :
  string_keyed region ->
  region !! KStr "top" = None ->
  region !! KStr "ti" = None ->
  resolve_region in_image (RawRegion region)
  = Raise (KeyError (KStr "tier_index_type"))
  \/ resolve_region in_image (RawRegion region)
     = Raise (KeyError (KStr "reference_tier_index"))
  \/ resolve_region in_image (RawRegion region) = Ok (RawRegion region).
Proof.
  intros Hkeys Htop Hti. unfold resolve_region.
  destruct (region !! KStr "tier_index_type") as [tt|] eqn:Htype.
  - destruct (region !! KStr "reference_tier_index") as [rt|] eqn:Href.
    + right. right.
      rewrite (getitem_Some _ _ _ Htype), (getitem_Some _ _ _ Href). simpl.
      rewrite (contains_None _ _ Htop), (contains_None _ _ Hti).
      rewrite (contains_None _ _
                 (string_keyed_no_tuple _ ["tx"; "ty"] Hkeys)).
      reflexivity.
    + right. left.
      rewrite (getitem_Some _ _ _ Htype), (getitem_None _ _ Href).
      reflexivity.
  - left. rewrite (getitem_None _ _ Htype). reflexivity.
Qed.

(** C2 (amended). For every raw region payload, a dictionary with string
    keys.  More than one descriptor is not an error: a payload that holds
    [top] is resolved exactly as the same payload without [ti], [tx] and
    [ty], and a payload without [top] that holds [ti] exactly as the same
    payload without [tx] and [ty]; when the two tier keys and the keys of
    the selected descriptor are present, that is the call of the region
    parser on [top], [left], [width], [height], respectively the validation
    of [ti] followed by the tile of the tier.  A payload that holds none of
    [top], [ti], [tx], [ty] is never resolved to a [Region], and the request
    is rejected as an error, provided the output-size step refuses a
    dictionary in the place of a [Region]. *)
Theorem region_descriptor_selection (in_image : Image) (region : pydict) :
  (is_Some (region !! KStr "top") ->
   resolve_region in_image (RawRegion region)
   = resolve_region in_image
       (RawRegion (delete (KStr "ti")
                     (delete (KStr "tx") (delete (KStr "ty") region))))) /\
  (region !! KStr "top" = None ->
   is_Some (region !! KStr "ti") ->
   resolve_region in_image (RawRegion region)
   = resolve_region in_image
       (RawRegion (delete (KStr "tx") (delete (KStr "ty") region)))) /\
  (forall tier_index_type reference top left width height : value,
     region !! KStr "tier_index_type" = Some tier_index_type ->
     region !! KStr "reference_tier_index" = Some reference ->
     region !! KStr "top" = Some top ->
     region !! KStr "left" = Some left ->
     region !! KStr "width" = Some width ->
     region !! KStr "height" = Some height ->
     resolve_region in_image (RawRegion region)
     = (r ← parse_region in_image top left width height
             (default_reference_tier in_image tier_index_type reference)
             tier_index_type false;
        Ok (IsRegion r))) /\
  (forall tier_index_type reference ti : value,
     region !! KStr "tier_index_type" = Some tier_index_type ->
     region !! KStr "reference_tier_index" = Some reference ->
     region !! KStr "top" = None ->
     region !! KStr "ti" = Some ti ->
     resolve_region in_image (RawRegion region)
     = (check_tileindex_validity (pyramid in_image) ti
          (default_reference_tier in_image tier_index_type reference)
          tier_index_type;;
        tier ← get_tier_at (pyramid in_image)
                 (default_reference_tier in_image tier_index_type reference)
                 tier_index_type;
        r ← get_ti_tile tier ti;
        Ok (IsRegion r))) /\
  (string_keyed region ->
   region !! KStr "top" = None ->
   region !! KStr "ti" = None ->
   region !! KStr "tx" = None ->
   region !! KStr "ty" = None ->
   (forall r : Region,
      resolve_region in_image (RawRegion region) <> Ok (IsRegion r)) /\
   ((forall (i : Image) (d : pydict) (h w l z lv : value),
       is_ok (get_window_output_dimensions i (RawRegion d) h w l z lv)
       = false) ->
    is_ok (_show_window path (RawRegion region)
             height width length zoom level
             channels z_slices timepoints
             min_intensities max_intensities filters gammas threshold
             bits colorspace annotations annotation_style
             extension headers config
             colormaps c_reduction z_reduction t_reduction) = false)).
Proof.
  split; [| split; [| split; [| split]]].
  - intros [top Htop]. unfold resolve_region.
    rewrite !(getitem_delete_ne _ _ (KStr "tier_index_type")),
      !(getitem_delete_ne _ _ (KStr "reference_tier_index")),
      !(getitem_delete_ne _ _ (KStr "top")),
      !(getitem_delete_ne _ _ (KStr "left")),
      !(getitem_delete_ne _ _ (KStr "width")),
      !(getitem_delete_ne _ _ (KStr "height")),
      !(contains_delete_ne _ _ (KStr "top")) by discriminate.
    rewrite (contains_Some _ _ _ Htop). reflexivity.
  - intros Htop [ti Hti]. unfold resolve_region.
    rewrite !(getitem_delete_ne _ _ (KStr "tier_index_type")),
      !(getitem_delete_ne _ _ (KStr "reference_tier_index")),
      !(getitem_delete_ne _ _ (KStr "ti")),
      !(contains_delete_ne _ _ (KStr "top")),
      !(contains_delete_ne _ _ (KStr "ti")) by discriminate.
    rewrite (contains_None _ _ Htop), (contains_Some _ _ _ Hti).
    reflexivity.
  - intros tt rt top left w h Htype Href Htop Hleft Hwidth Hheight.
    exact (proj1 (region_mode_by_key_precedence in_image region tt rt
                    Htype Href) top left w h Htop Hleft Hwidth Hheight).
  - intros tt rt ti Htype Href Htop Hti.
    exact (proj1 (proj2 (region_mode_by_key_precedence in_image region tt rt
                           Htype Href)) ti Htop Hti).
  - intros Hkeys Htop Hti _ _. split.
    + intros r Hr.
      destruct (no_descriptor_no_region in_image region Hkeys Htop Hti)
        as [Hrun | [Hrun | Hrun]]; rewrite Hrun in Hr; discriminate.
    + intros Hrefuses.
      match goal with
      | |- is_ok ?run = false => destruct run as [resp |] eqn:Hrun
      end; [exfalso | reflexivity].
      destruct (show_window_steps _ _ _ _ _ _ _ _ _ _ _ _ _ _ _ _ _ _ _ _
                  _ _ _ _ _ _ _ Hrun)
        as (i & resolved & fmt & served & affine & mask & Himage & Hregion
            & Hformat & Hzoom & Hlevel & Hreq & _).
      destruct (no_descriptor_no_region i region Hkeys Htop Hti)
        as [Hraise | [Hraise | Hraw]].
      * rewrite Hraise in Hregion. discriminate.
      * rewrite Hraise in Hregion. discriminate.
      * rewrite Hraw in Hregion. injection Hregion as <-.
        pose proof (Hrefuses i region height width length zoom level)
          as Hno.
        rewrite Hreq in Hno. discriminate.
Qed.
End descriptor_selection.

(** *** The selection of the descriptor on the small server *)

(** The payload with both descriptors resolves as it does without its tile
    index, and a payload with the tier keys only is rejected. *)
Lemma region_descriptor_selection_witness :
  @resolve_region _ Demo.server Demo.slide
    (RawRegion Demo.ambiguous_payload)
  = @resolve_region _ Demo.server Demo.slide
      (RawRegion (delete (KStr "ti")
                    (delete (KStr "tx")
                       (delete (KStr "ty") Demo.ambiguous_payload)))) /\
  is_ok (@_show_window _ Demo.server (from_filepath "123/my-file.ext")
           (RawRegion Demo.level_tier) VNone VNone VNone VNone VNone
           VNone VNone VNone VNone VNone VNone VNone VNone VNone VNone
           AnnNone None (VStr ".png") Demo.plain_headers Demo.settings
           Omitted Omitted Omitted Omitted) = false.
Proof.
  split.
  - refine (proj1
      (@region_descriptor_selection _ Demo.server
         (from_filepath "123/my-file.ext")
         VNone VNone VNone VNone VNone
         VNone VNone VNone VNone VNone VNone VNone VNone VNone VNone
         AnnNone None (VStr ".png") Demo.plain_headers Demo.settings
         Omitted Omitted Omitted Omitted
         Demo.slide Demo.ambiguous_payload) _).
    exists (VInt 0). vm_compute. reflexivity.
  - refine (proj2 (proj2 (proj2 (proj2 (proj2
      (@region_descriptor_selection _ Demo.server
         (from_filepath "123/my-file.ext")
         VNone VNone VNone VNone VNone
         VNone VNone VNone VNone VNone VNone VNone VNone VNone VNone
         AnnNone None (VStr ".png") Demo.plain_headers Demo.settings
         Omitted Omitted Omitted Omitted
         Demo.slide Demo.level_tier)))) _ _ _ _ _) _).
    + apply (bool_decide_unpack _). vm_compute. exact I.
    + vm_compute. reflexivity.
    + vm_compute. reflexivity.
    + vm_compute. reflexivity.
    + vm_compute. reflexivity.
    + intros i d h w l z lv. reflexivity.
Defined.

(** ** The response that is produced *)

Section produced_response.
Context `{Server}.
Variables (path : Path) (region : region_arg).
Variables (height width length zoom level : value).
Variables (channels z_slices timepoints : value).
Variables (min_intensities max_intensities filters gammas threshold : value).
Variables (bits colorspace : value).
Variables (annotations : annotations_arg) (annotation_style : option pydict).
Variables (extension : value) (headers : Headers) (config : Settings).
Variables (colormaps : kwarg value).
Variables (c_reduction z_reduction t_reduction : kwarg (option Reduction)).

(** What the steps before the annotations return. *)
Variables (in_image : Image) (resolved : region_arg).
Variables (out_format : OutFormat) (mime : string).
Variables (req_size : Z * Z) (out_width out_height : Z).
Variables (indexes z_indexes t_indexes kept : list Z).
Variables (mins maxs cmaps gams : list value).
Variables (parsed_filters : list Filter) (out_bitdepth : Z).

Hypothesis image_found : get_cached_spatial path = Some in_image.
Hypothesis region_resolved : resolve_region in_image region = Ok resolved.
Hypothesis format_negotiated :
  get_output_format extension (accept headers) = Ok (out_format, mime).
Hypothesis zoom_valid : check_zoom_validity (pyramid in_image) zoom = Ok ().
Hypothesis level_valid :
  check_level_validity (pyramid in_image) level = Ok ().
Hypothesis size_requested :
  get_window_output_dimensions in_image resolved
    height width length zoom level = Ok req_size.
Hypothesis size_safeguarded :
  safeguard_output_dimensions (safe_mode headers) (output_size_limit config)
    req_size.1 req_size.2 = Ok (out_width, out_height).
Hypothesis dimensions_resolved :
  resolve_dimensions in_image channels z_slices timepoints
    (kwarg_value (Some ADD) c_reduction) (kwarg_value None z_reduction)
    (kwarg_value None t_reduction)
  = Ok (indexes, z_indexes, t_indexes).
Hypothesis channels_broadcast :
  broadcast_channel_parameters in_image indexes z_indexes t_indexes
    (ensure_list min_intensities) (ensure_list max_intensities)
    (ensure_list (kwarg_value VNone colormaps))
    (ensure_list filters) (ensure_list gammas)
  = Ok (kept, mins, maxs, cmaps, gams).
Hypothesis filters_resolved :
  resolve_filters mins maxs cmaps (ensure_list filters) gams
  = Ok parsed_filters.
Hypothesis bitdepth_parsed : parse_bitdepth in_image bits = Ok out_bitdepth.

Let run : result HttpResponse :=
  _show_window path region height width length zoom level
    channels z_slices timepoints
    min_intensities max_intensities filters gammas threshold
    bits colorspace annotations annotation_style
    extension headers config colormaps c_reduction z_reduction t_reduction.







End produced_response.

(** *** The produced response on the small server *)


